(** * elm-watch browser client: the reconnecting hot-reload state machine,
      the program introspection and the [window.Elm] interception guard.

    The development follows the TypeScript sources: [client/client.ts]
    (the TEA program: [init], [update], [reconnect], [retryWaitMs],
    [checkInitializedElmAppsStatus], the view) and [client/proxy.ts]
    (the [Proxy] handler installed in place of Elm's compiled output). *)

From Stdlib Require Import ZArith List String Ascii Bool Lia.
Import ListNotations.

Local Open Scope Z_scope.
Local Open Scope list_scope.
Local Open Scope string_scope.

(** ** JavaScript values

    [unknown] data as the client inspects it: web socket frames and the
    page-global [window.Elm]. An object is given by its own enumerable
    string-keyed properties in enumeration order ([Object.keys]). *)

#[warnings="-register-all"]
Inductive JsValue : Type :=
| JsUndefined
| JsNull
| JsBoolean (b : bool)
| JsNumber (n : Z)
| JsString (s : string)
| JsFunction
| JsArray (items : list JsValue)
| JsObject (properties : list (string * JsValue)).

(** ** src/Types.ts: compilation modes *)

(** Modelled from the spec: the type [CompilationMode] of [src/Types.ts]
    (not among the sources), what client and server negotiate: ["debug"],
    ["standard"] or ["optimize"]. *)
Inductive CompilationMode : Type := debug | standard | optimize.

(** Modelled from the spec: the type [CompilationModeWithProxy] of
    [src/Types.ts] (not among the sources): a compilation mode or the
    client-only ["proxy"], nothing compiled yet. *)
Inductive CompilationModeWithProxy : Type :=
| mode (compilationMode : CompilationMode)
| proxy.

Definition CompilationMode_eqb (a b : CompilationMode) : bool :=
  match a, b with
  | debug, debug | standard, standard | optimize, optimize => true
  | _, _ => false
  end.

(** [a !== b] for a server-side mode [a] against the client's
    [COMPILATION_MODE]. *)
Definition CompilationMode_differs
  (a : CompilationMode) (b : CompilationModeWithProxy) : bool :=
  match b with
  | mode b' => negb (CompilationMode_eqb a b')
  | proxy => true
  end.

(** ** tiny-decoders

    The decoder library is external to the repository; these are the
    combinators [client.ts] builds its decoders from. A decoder returns
    its result or throws a [DecoderError], which records what went wrong
    and the path of keys leading to it. The rendering of such an error
    ([DecoderError#format]) and [Decode.repr] are parameters of the client
    (see [Client.Env]). *)

Module Decode.

Inductive Key : Type :=
| KeyString (key : string)
| KeyIndex (index : nat).

Inductive Variant : Type :=
| ExpectedString (got : JsValue)
| ExpectedArray (got : JsValue)
| ExpectedObject (got : JsValue)
| UnknownMultiType (knownTypes : list string) (got : JsValue)
| UnknownStringUnionVariant (knownVariants : list string) (got : string)
| Custom (message : string).

Record DecoderError : Type := {
  variant : Variant;
  path : list Key;
}.

(** What a [catch (unknownError)] clause can receive: a [DecoderError],
    another [Error] (with its [message]), or any other value. *)
Inductive Thrown : Type :=
| ThrownDecoderError (error : DecoderError)
| ThrownError (message : string)
| ThrownValue (value : JsValue).

Definition Result (T : Type) : Type := (DecoderError + T)%type.

Definition Decoder (T : Type) : Type := JsValue -> Result T.

(** [throw new DecoderError(variant)] *)
Definition throw {T : Type} (v : Variant) : Result T :=
  inl {| variant := v; path := [] |}.

(** [DecoderError.at(error, key)]: the key is put in front of the path. *)
Definition at_ (error : DecoderError) (key : Key) : DecoderError :=
  {| variant := variant error; path := key :: path error |}.

(** [DecoderError.at(error, key)] for an [Error] that is not a
    [DecoderError]: a new error at that key, with the same message. *)
Definition at_Error (message : String.string) (key : Key) : DecoderError :=
  {| variant := Custom message; path := [key] |}.

Definition string : Decoder String.string :=
  fun value =>
    match value with
    | JsString s => inr s
    | _ => throw (ExpectedString value)
    end.

(** [stringUnion(mapping)], the mapping given by its keys in order. *)
Definition stringUnion (variants : list String.string)
  : Decoder String.string :=
  fun value =>
    match string value with
    | inl error => inl error
    | inr str =>
        if existsb (String.eqb str) variants then inr str
        else throw (UnknownStringUnionVariant variants str)
    end.

Definition chain {T U : Type} (decoder : Decoder T) (next : T -> Result U)
  : Decoder U :=
  fun value =>
    match decoder value with
    | inl error => inl error
    | inr t => next t
    end.

Definition array {T : Type} (decoder : Decoder T) : Decoder (list T) :=
  fun value =>
    match value with
    | JsArray arr =>
        (fix loop (index : nat) (rest : list JsValue) : Result (list T) :=
           match rest with
           | [] => inr []
           | item :: rest' =>
               match decoder item with
               | inl error => inl (at_ error (KeyIndex index))
               | inr t =>
                   match loop (S index) rest' with
                   | inl error => inl error
                   | inr result => inr (t :: result)
                   end
               end
           end) 0%nat arr
    | _ => throw (ExpectedArray value)
    end.

(** [object[key]] on own properties; [undefined] when missing. *)
Fixpoint property (object : list (String.string * JsValue))
  (key : String.string) : JsValue :=
  match object with
  | [] => JsUndefined
  | (k, v) :: object' => if String.eqb k key then v else property object' key
  end.

(** [fields((field) => field(key, decoder))]: a single field is read. *)
Definition fields1 {T : Type} (key : String.string) (decoder : Decoder T)
  : Decoder T :=
  fun value =>
    match value with
    | JsObject object =>
        match decoder (property object key) with
        | inl error => inl (at_ error (KeyString key))
        | inr t => inr t
        end
    | _ => throw (ExpectedObject value)
    end.

(** [record(decoder)]: every key of [Object.keys] but ["__proto__"]. *)
Definition record {T : Type} (decoder : Decoder T)
  : Decoder (list (String.string * T)) :=
  fun value =>
    match value with
    | JsObject object =>
        (fix loop (keys : list (String.string * JsValue))
           : Result (list (String.string * T)) :=
           match keys with
           | [] => inr []
           | (key, v) :: keys' =>
               if String.eqb key "__proto__" then loop keys'
               else
                 match decoder v with
                 | inl error => inl (at_ error (KeyString key))
                 | inr t =>
                     match loop keys' with
                     | inl error => inl error
                     | inr result => inr ((key, t) :: result)
                     end
                 end
           end) object
    | _ => throw (ExpectedObject value)
    end.

(** The mapping of [multi], for the types [client.ts] gives decoders
    to; [knownTypes] is [Object.keys(mapping)]. *)
Record MultiMapping (T : Type) : Type := {
  knownTypes : list String.string;
  on_null : option (Decoder T);
  on_array : option (Decoder T);
  on_object : option (Decoder T);
}.

Arguments knownTypes {T} _.
Arguments on_null {T} _.
Arguments on_array {T} _.
Arguments on_object {T} _.

(** [multi(mapping)]: dispatch on the type of the value; anything that
    is neither a primitive nor an array takes the object branch (in
    [client.ts] a function never gets here: [functionToNull] has replaced
    it). *)
Definition multi {T : Type} (mapping : MultiMapping T) : Decoder T :=
  fun value =>
    let unknown := throw (UnknownMultiType (knownTypes mapping) value) in
    let run (decoder : option (Decoder T)) :=
      match decoder with
      | Some decoder => decoder value
      | None => unknown
      end in
    match value with
    | JsNull => run (on_null mapping)
    | JsArray _ => run (on_array mapping)
    | JsObject _ | JsFunction => run (on_object mapping)
    | JsUndefined | JsBoolean _ | JsNumber _ | JsString _ => unknown
    end.

End Decode.

(** ** client/proxy.ts

    The stub served before the first compilation replaces [window.Elm] by
    a [Proxy] whose traps throw one fixed error. *)

Module Proxy.

(** A property key is a string or a symbol (given by its description). *)
Inductive PropertyKey : Type :=
| StringKey (name : string)
| SymbolKey (description : string).

Definition PropertyKey_eqb (a b : PropertyKey) : bool :=
  match a, b with
  | StringKey x, StringKey y => String.eqb x y
  | SymbolKey x, SymbolKey y => String.eqb x y
  | _, _ => false
  end.

(** [property.toString()] *)
Definition toString (property : PropertyKey) : string :=
  match property with
  | StringKey name => name
  | SymbolKey description => "Symbol(" ++ description ++ ")"
  end.

(** [string.startsWith(searchString)] *)
Definition startsWith (string searchString : string) : bool :=
  String.prefix searchString string.

Definition Properties : Type := list (PropertyKey * JsValue).

(** The proxied object: its own data properties and those of the
    objects on its prototype chain, nearest first. *)
Record Target : Type := {
  own : Properties;
  prototypeChain : list Properties;
}.

Fixpoint lookup (properties : Properties) (property : PropertyKey)
  : option JsValue :=
  match properties with
  | [] => None
  | (key, value) :: properties' =>
      if PropertyKey_eqb key property then Some value
      else lookup properties' property
  end.

Fixpoint lookupChain (chain : list Properties) (property : PropertyKey)
  : option JsValue :=
  match chain with
  | [] => None
  | properties :: chain' =>
      match lookup properties property with
      | Some value => Some value
      | None => lookupChain chain' property
      end
  end.

(** The property as [Reflect.get] and [Reflect.has] find it: on the
    object or up its prototype chain. *)
Definition find (target : Target) (property : PropertyKey)
  : option JsValue :=
  lookupChain (own target :: prototypeChain target) property.

Definition Reflect_get (target : Target) (property : PropertyKey)
  : JsValue :=
  match find target property with
  | Some value => value
  | None => JsUndefined
  end.

Definition Reflect_has (target : Target) (property : PropertyKey) : bool :=
  match find target property with
  | Some _ => true
  | None => false
  end.

(** A data property descriptor, by the value it holds. *)
Record PropertyDescriptor : Type := { value : JsValue }.

Definition Reflect_getOwnPropertyDescriptor
  (target : Target) (property : PropertyKey) : option PropertyDescriptor :=
  match lookup (own target) property with
  | Some v => Some {| value := v |}
  | None => None
  end.

Definition isUndefined (value : JsValue) : bool :=
  match value with
  | JsUndefined => true
  | _ => false
  end.

Record Error : Type := { message : string }.

(** A trap returns or throws. *)
Inductive Completion (T : Type) : Type :=
| Return (result : T)
| Throw (thrown : Error).

Arguments Return {T} _.
Arguments Throw {T} _.

Definition error : Error :=
  {| message :=
"Certain parts of `window.Elm` aren't available yet! That's fine though!

`elm-watch` has generated a stub file in place of Elm's compiled JS. This is
because until just now, there was no need to spend time on generating JS!

This stub file is now connecting to `elm-watch` via WebSocket, letting it know
that it's time to start generating real JS. Once that's done the page should be
automatically reloaded. But if you get compilation errors you'll need to fix
them first." |}.

(** [existingObject ?? {}], where [existingObject] is [window.Elm] when
    that is an object; [ObjectPrototype] is what [{}] inherits. *)
Definition proxied (existingObject : option Target)
  (ObjectPrototype : Properties) : Target :=
  match existingObject with
  | Some existing => existing
  | None => {| own := []; prototypeChain := [ObjectPrototype] |}
  end.

(** The handler's traps. *)

Definition get (target : Target) (property : PropertyKey)
  : Completion JsValue :=
  let value := Reflect_get target property in
  if negb (isUndefined value) || startsWith (toString property) "_"
  then Return value
  else Throw error.

Definition getOwnPropertyDescriptor
  (target : Target) (property : PropertyKey)
  : Completion PropertyDescriptor :=
  match Reflect_getOwnPropertyDescriptor target property with
  | Some descriptor => Return descriptor
  | None => Throw error
  end.

Definition has (target : Target) (property : PropertyKey)
  : Completion bool :=
  if Reflect_has target property then Return true else Throw error.

(** [ownKeys() { throw error; }] has no result to give. *)
Definition ownKeys (target : Target) : Completion Empty_set :=
  Throw error.

End Proxy.

(** ** client/WebSocketMessages.ts: the wire messages *)

Module WebSocketMessages.

(** Modelled from the spec: the [status] of a [StatusChanged] message, a
    type of [client/WebSocketMessages.ts] (not among the sources), with
    the fields [statusChanged] reads. *)
Inductive StatusChangedStatus : Type :=
| AlreadyUpToDate
| Busy (compilationMode : CompilationMode)
| ClientError (message : string)
| CompileError.

(** Modelled from the spec: the type [WebSocketToClientMessage] of
    [client/WebSocketMessages.ts] (not among the sources), what the
    server sends. *)
Inductive WebSocketToClientMessage : Type :=
| StatusChanged (status : StatusChangedStatus)
| SuccessfullyCompiled
    (code : string)
    (elmCompiledTimestamp : Z)
    (compilationMode : CompilationMode).

(** Modelled from the spec: the type [WebSocketToServerMessage] of
    [client/WebSocketMessages.ts] (not among the sources), what the
    client sends. *)
Inductive WebSocketToServerMessage : Type :=
| FocusedTab
| ChangedCompilationMode (compilationMode : CompilationMode).

End WebSocketMessages.

(** ** client/client.ts *)

Module Client.

Import WebSocketMessages (WebSocketToClientMessage, WebSocketToServerMessage,
                          StatusChangedStatus, StatusChanged,
                          SuccessfullyCompiled, AlreadyUpToDate,
                          ClientError).

(** A [Date], observed through [getTime()] (milliseconds). *)
Record Date : Type := { getTime : Z }.

(** The build-time constants substituted into the client
    ([%COMPILATION_MODE%], [%INITIAL_ELM_COMPILED_TIMESTAMP%]) and the
    functions it imports from outside [client.ts]. *)
Record Env : Type := {
  INITIAL_ELM_COMPILED_TIMESTAMP : Z;
  COMPILATION_MODE : CompilationModeWithProxy;
  decodeWebSocketToClientMessage :
    string -> Decode.Thrown + WebSocketToClientMessage;
  DecoderError_format : Decode.DecoderError -> string;
  Decode_repr : JsValue -> string;
}.

Inductive SendKey : Type := SEND_KEY_DO_NOT_USE_ALL_THE_TIME.

Inductive UiMsg : Type :=
| ChangedCompilationMode (compilationMode : CompilationMode) (sendKey : SendKey)
| PressedChevron
| PressedReconnectNow.

Inductive Msg : Type :=
| EvalErrored (date : Date)
| FocusedTab
| PageVisibilityChangedToVisible (date : Date)
| SleepBeforeReconnectDone (date : Date)
| UiMsg_ (date : Date) (msg : UiMsg)
| WebSocketClosed (date : Date)
| WebSocketConnected (date : Date)
| WebSocketMessageReceived (date : Date) (data : JsValue).

Inductive Status : Type :=
| Busy (date : Date) (compilationMode : option CompilationMode)
| CompileError (date : Date)
| Connecting (date : Date) (attemptNumber : Z)
| EvalError (date : Date)
| Idle (date : Date) (sendKey : SendKey)
| SleepingBeforeReconnect (date : Date) (attemptNumber : Z)
| UnexpectedError (date : Date) (message : string).

Record Model : Type := {
  status : Status;
  elmCompiledTimestamp : Z;
  canHotReload : bool;
  uiExpanded : bool;
}.

Inductive Cmd : Type :=
| Eval (code : string)
| Reconnect (elmCompiledTimestamp : Z)
| ReloadPage
| Render (model : Model) (manageFocus : bool)
| SendMessage (message : WebSocketToServerMessage) (sendKey : SendKey)
| SleepBeforeReconnect (attemptNumber : Z).

(** [{ ...model, field: value }] *)
Definition with_status (s : Status) (model : Model) : Model :=
  {| status := s;
     elmCompiledTimestamp := elmCompiledTimestamp model;
     canHotReload := canHotReload model;
     uiExpanded := uiExpanded model |}.

Definition with_elmCompiledTimestamp (t : Z) (model : Model) : Model :=
  {| status := status model;
     elmCompiledTimestamp := t;
     canHotReload := canHotReload model;
     uiExpanded := uiExpanded model |}.

Definition with_canHotReload (b : bool) (model : Model) : Model :=
  {| status := status model;
     elmCompiledTimestamp := elmCompiledTimestamp model;
     canHotReload := b;
     uiExpanded := uiExpanded model |}.

Definition with_uiExpanded (b : bool) (model : Model) : Model :=
  {| status := status model;
     elmCompiledTimestamp := elmCompiledTimestamp model;
     canHotReload := canHotReload model;
     uiExpanded := b |}.

(** [retryWaitMs]: at least 1010 ms, at most 1 minute. Attempt numbers
    and times are integers, on which JavaScript's arithmetic is the one
    written here. *)
Definition retryWaitMs (attemptNumber : Z) : Z :=
  Z.min (1000 + 10 * attemptNumber ^ 2) (1000 * 60).

(** ["attemptNumber" in model.status ? model.status.attemptNumber : ...] *)
Definition attemptNumber_in (s : Status) : option Z :=
  match s with
  | Connecting _ n | SleepingBeforeReconnect _ n => Some n
  | _ => None
  end.

Definition reconnect (model : Model) (date : Date) (force : bool)
  : Model * list Cmd :=
  match status model with
  | SleepingBeforeReconnect since attemptNumber =>
      if (getTime date - getTime since >=? retryWaitMs attemptNumber)
         || force
      then (with_status (Connecting date attemptNumber) model,
            [Reconnect (elmCompiledTimestamp model)])
      else (model, [])
  | _ => (model, [])
  end.

Definition onUiMsg (date : Date) (msg : UiMsg) (model : Model)
  : Model * list Cmd :=
  match msg with
  | ChangedCompilationMode compilationMode sendKey =>
      (with_status (Busy date (Some compilationMode)) model,
       [SendMessage
          (WebSocketMessages.ChangedCompilationMode compilationMode)
          sendKey])
  | PressedChevron =>
      (with_uiExpanded (negb (uiExpanded model)) model, [])
  | PressedReconnectNow => reconnect model date true
  end.

Definition statusChanged
  (date : Date) (status : StatusChangedStatus) (model : Model) : Model :=
  match status with
  | AlreadyUpToDate =>
      with_canHotReload true
        (with_status (Idle date SEND_KEY_DO_NOT_USE_ALL_THE_TIME) model)
  | WebSocketMessages.Busy compilationMode =>
      with_status (Busy date (Some compilationMode)) model
  | ClientError message =>
      with_uiExpanded true
        (with_status (UnexpectedError date message) model)
  | WebSocketMessages.CompileError =>
      with_status (CompileError date) model
  end.

Inductive ParseWebSocketMessageDataResult : Type :=
| Error (message : string)
| Success (message : WebSocketToClientMessage).

Definition newline : string := String (ascii_of_nat 10) EmptyString.

(** *** Program introspection *)

Definition functionToNull (value : JsValue) : JsValue :=
  match value with
  | JsFunction => JsNull
  | _ => value
  end.

Inductive ProgramType : Type :=
| Platform_worker
| Browser_sandbox
| Browser_element
| Browser_document
| Browser_application
| Html.

(** The string each program type is on the JavaScript side. *)
Definition ProgramType_toString (programType : ProgramType) : string :=
  match programType with
  | Platform_worker => "Platform.worker"
  | Browser_sandbox => "Browser.sandbox"
  | Browser_element => "Browser.element"
  | Browser_document => "Browser.document"
  | Browser_application => "Browser.application"
  | Html => "Html"
  end.

(** The keys of the mapping given to [Decode.stringUnion]. *)
Definition ProgramType_variants : list ProgramType :=
  [Platform_worker; Browser_sandbox; Browser_element; Browser_document;
   Browser_application; Html].

Definition ProgramType_eqb (a b : ProgramType) : bool :=
  String.eqb (ProgramType_toString a) (ProgramType_toString b).

(** [Decode.stringUnion({ "Platform.worker": null, ... })] *)
Definition ProgramType_decoder : Decode.Decoder ProgramType :=
  Decode.chain
    (Decode.stringUnion (map ProgramType_toString ProgramType_variants))
    (fun str =>
       match find (fun p => String.eqb (ProgramType_toString p) str)
               ProgramType_variants with
       | Some programType => inr programType
       | None =>
           Decode.throw
             (Decode.UnknownStringUnionVariant
                (map ProgramType_toString ProgramType_variants) str)
       end).

(** [Decode.array(Decode.fields((field) =>
      field("__elmWatchProgramType", ProgramType)))] *)
Definition elmWatchApps : Decode.Decoder (list ProgramType) :=
  Decode.array (Decode.fields1 "__elmWatchProgramType" ProgramType_decoder).

(** [(record) => Object.values(record).flat()] *)
Definition flatValues {T : Type} (record : list (string * list T))
  : list T :=
  List.concat (map snd record).

(** The mapping [ElmModule] hands to [Decode.multi], given the decoder
    for nested modules. *)
Definition ElmModule_mapping
  (nested : Decode.Decoder (list ProgramType))
  : Decode.MultiMapping (list ProgramType) :=
  {| Decode.knownTypes := ["null"; "array"; "object"];
     Decode.on_null := Some (fun _ => inr []);
     Decode.on_array := Some elmWatchApps;
     Decode.on_object := Some nested |}.

(** [ElmModule]: the decoder is recursive through the [object] branch.
    The recursion is on the structure of the value; [ElmModule_unfold]
    below shows that it is the source's
    [chain(record(chain(functionToNull, multi({...}))), flat)]. *)
Fixpoint ElmModule (value : JsValue) : Decode.Result (list ProgramType) :=
  match value with
  | JsObject object =>
      (fix loop (keys : list (string * JsValue))
         : Decode.Result (list ProgramType) :=
         match keys with
         | [] => inr []
         | (key, v) :: keys' =>
             if String.eqb key "__proto__" then loop keys'
             else
               let decoded :=
                 match v with
                 | JsFunction | JsNull => inr []
                 | JsArray _ => elmWatchApps v
                 | JsObject _ => ElmModule v
                 | JsUndefined | JsBoolean _ | JsNumber _ | JsString _ =>
                     Decode.throw
                       (Decode.UnknownMultiType ["null"; "array"; "object"] v)
                 end in
               match decoded with
               | inl error => inl (Decode.at_ error (Decode.KeyString key))
               | inr types =>
                   match loop keys' with
                   | inl error => inl error
                   | inr result => inr (types ++ result)%list
                   end
               end
         end) object
  | _ => Decode.throw (Decode.ExpectedObject value)
  end.

(** What [window.Elm] holds: a plain value ([JsUndefined] when unset),
    or the [Proxy] that [client/proxy.ts] has put there. *)
Inductive ElmGlobal : Type :=
| Plain (value : JsValue)
| Guarded (target : Proxy.Target).

(** The page global, as far as the client reads it. *)
Record Window : Type := { Elm : ElmGlobal }.

(** [Decode.fields((field) => field("Elm", ElmModule))] applied to
    [window], which is an object. On the guard, [ElmModule] gets as far
    as [Decode.record] asking for [Object.keys(value)] (a proxy of an
    object is an object): the [ownKeys] trap throws, and [field] turns
    what it catches into a [DecoderError] at ["Elm"]. *)
Definition ProgramTypes (window : Window)
  : Decode.Result (list ProgramType) :=
  match Elm window with
  | Plain value =>
      match ElmModule value with
      | inl error => inl (Decode.at_ error (Decode.KeyString "Elm"))
      | inr types => inr types
      end
  | Guarded target =>
      match Proxy.ownKeys target with
      | Proxy.Throw thrown =>
          inl (Decode.at_Error (Proxy.message thrown)
                 (Decode.KeyString "Elm"))
      | Proxy.Return keys => match keys with end
      end
  end.

Inductive Toggled : Type :=
| Disabled (reason : string)
| Enabled.

Inductive InitializedElmAppsStatus : Type :=
| DebuggerModeStatus (status : Toggled)
| DecodeError (message : string)
| NoProgramsAtAll.

(** The filter of [checkInitializedElmAppsStatus]: the program types
    that do not support the debugger. *)
Definition noDebuggerFilter (programType : ProgramType) : bool :=
  match programType with
  | Platform_worker | Html => true
  | Browser_sandbox | Browser_element | Browser_document
  | Browser_application => false
  end.

(** [new Set(array)]: elements in order of first insertion. *)
Definition Set_add (s : list ProgramType) (x : ProgramType)
  : list ProgramType :=
  if existsb (ProgramType_eqb x) s then s else (s ++ [x])%list.

Definition new_Set (array : list ProgramType) : list ProgramType :=
  fold_left Set_add array [].

(** [Array#join] *)
Definition join (array : list string) (separator : string) : string :=
  String.concat separator array.

Definition humanList (list : list string) (joinWord : string) : string :=
  let length := List.length list in
  if (length <=? 1)%nat then join list ""
  else if (length =? 2)%nat then join list (" " ++ joinWord ++ " ")
  else join (firstn (length - 2) list) ","
       ++ ", "
       ++ join (skipn (length - 2) list) (" " ++ joinWord ++ " ").

Definition noDebuggerReason (noDebuggerProgramTypes : list ProgramType)
  : string :=
  "The Elm debugger isn't supported by "
  ++ humanList
       (map (fun programType =>
               "`" ++ ProgramType_toString programType ++ "`")
          noDebuggerProgramTypes)
       "and"
  ++ " programs.".

(** *** The view, as far as the state machine depends on it

    [view], [viewStatus] and [viewCompilationModeChooser] build DOM
    elements; what matters to [update] is which [UiMsg] their event
    handlers can dispatch. Each function below returns the messages
    wired to the handlers of the elements the source function returns. *)

Record Info : Type := {
  version : string;
  webSocketUrl : string;
  targetName : string;
  compilationMode : CompilationModeWithProxy;
  initializedElmAppsStatus : InitializedElmAppsStatus;
}.

(** [onchange] is set on the three radio buttons only when [sendKey]
    is not [undefined]. *)
Definition viewCompilationModeChooser
  (sendKey : option SendKey) (status : InitializedElmAppsStatus)
  : list UiMsg :=
  match status with
  | DecodeError _ => []
  | NoProgramsAtAll => []
  | DebuggerModeStatus _ =>
      match sendKey with
      | None => []
      | Some sendKey =>
          map (fun mode => ChangedCompilationMode mode sendKey)
            [debug; standard; optimize]
      end
  end.

(** The handlers in [statusData.content]. *)
Definition viewStatus (status : Status) (info : Info) : list UiMsg :=
  match status with
  | Busy _ _ =>
      viewCompilationModeChooser None (initializedElmAppsStatus info)
  | CompileError _ => []
  | Connecting _ _ => []
  | EvalError _ => []
  | Idle _ sendKey =>
      viewCompilationModeChooser (Some sendKey)
        (initializedElmAppsStatus info)
  | SleepingBeforeReconnect _ _ => [PressedReconnectNow]
  | UnexpectedError _ _ => []
  end.

(** [statusData.content] is part of the tree only when the UI is
    expanded; the chevron is always there. *)
Definition view (model : Model) (info : Info) : list UiMsg :=
  let statusData := viewStatus (status model) info in
  ((if uiExpanded model then statusData else []) ++ [PressedChevron])%list.

Section WithEnv.

Variable env : Env.

Definition possiblyDecodeErrorToString (unknownError : Decode.Thrown)
  : string :=
  match unknownError with
  | Decode.ThrownDecoderError e => DecoderError_format env e
  | Decode.ThrownError message => message
  | Decode.ThrownValue v => Decode_repr env v
  end.

(** The [try] block of [parseWebSocketMessageData]:
    [decodeWebSocketToClientMessage(Decode.string(data))]. *)
Definition parseWebSocketMessageData_try (data : JsValue)
  : Decode.Thrown + WebSocketToClientMessage :=
  match Decode.string data with
  | inl error => inl (Decode.ThrownDecoderError error)
  | inr text => decodeWebSocketToClientMessage env text
  end.

Definition parseWebSocketMessageData (data : JsValue)
  : ParseWebSocketMessageDataResult :=
  match parseWebSocketMessageData_try data with
  | inr message => Success message
  | inl unknownError =>
      Error ("Failed to decode web socket message sent from the server:"
             ++ newline ++ possiblyDecodeErrorToString unknownError)
  end.

Definition onWebSocketToClientMessage
  (date : Date) (msg : WebSocketToClientMessage) (model : Model)
  : Model * list Cmd :=
  match msg with
  | StatusChanged st => (statusChanged date st model, [])
  | SuccessfullyCompiled code timestamp compilationMode =>
      if negb (canHotReload model)
         || CompilationMode_differs compilationMode (COMPILATION_MODE env)
      then (model, [ReloadPage])
      else (with_elmCompiledTimestamp timestamp
              (with_status (Idle date SEND_KEY_DO_NOT_USE_ALL_THE_TIME)
                 model),
            [Eval code])
  end.

Definition init (date : Date) : Model * list Cmd :=
  let model :=
    {| status := Connecting date 1;
       elmCompiledTimestamp := INITIAL_ELM_COMPILED_TIMESTAMP env;
       canHotReload := false;
       uiExpanded := false |} in
  (model, [Render model false]).

Definition update (msg : Msg) (model : Model) : Model * list Cmd :=
  match msg with
  | EvalErrored date =>
      (with_uiExpanded true (with_status (EvalError date) model), [])
  | FocusedTab =>
      (model,
       match status model with
       | Idle _ sendKey =>
           [SendMessage WebSocketMessages.FocusedTab sendKey]
       | _ => []
       end)
  | PageVisibilityChangedToVisible date => reconnect model date true
  | SleepBeforeReconnectDone date => reconnect model date false
  | UiMsg_ date msg => onUiMsg date msg model
  | WebSocketClosed date =>
      let attemptNumber :=
        match attemptNumber_in (status model) with
        | Some n => n + 1
        | None => 1
        end in
      (with_status (SleepingBeforeReconnect date attemptNumber) model,
       [SleepBeforeReconnect attemptNumber])
  | WebSocketConnected date =>
      (with_status (Busy date None) model, [])
  | WebSocketMessageReceived date data =>
      match parseWebSocketMessageData data with
      | Success message => onWebSocketToClientMessage date message model
      | Error message =>
          (with_uiExpanded true
             (with_status (UnexpectedError date message) model),
           [])
      end
  end.

Definition checkInitializedElmAppsStatus (window : Window)
  : InitializedElmAppsStatus :=
  match ProgramTypes window with
  | inl unknownError =>
      match COMPILATION_MODE env with
      | proxy => DebuggerModeStatus Enabled
      | mode _ =>
          DecodeError
            (possiblyDecodeErrorToString
               (Decode.ThrownDecoderError unknownError))
      end
  | inr programTypes =>
      if (List.length programTypes =? 0)%nat then NoProgramsAtAll
      else
        let noDebugger := filter noDebuggerFilter programTypes in
        DebuggerModeStatus
          (if (List.length noDebugger =? List.length programTypes)%nat
           then Disabled (noDebuggerReason (new_Set noDebugger))
           else Enabled)
  end.

(** Modelled from the spec: the program loop [runTeaProgram] of
    [src/TeaProgram.ts] (not among the sources), as far as the model
    goes: each dispatched message, in order, is given to [update]
    together with the model the previous one left. *)
Definition dispatchAll (msgs : list Msg) (model : Model) : Model :=
  fold_left (fun model msg => fst (update msg model)) msgs model.

(** The [update] that [run] hands to the program loop: every
    transition is followed by a render of the new model. *)
Definition update_and_render (msg : Msg) (model : Model)
  : Model * list Cmd :=
  let (newModel, cmds) := update msg model in
  (newModel,
   (cmds ++ [Render newModel
               match msg with UiMsg_ _ _ => true | _ => false end])%list).

End WithEnv.

End Client.

(** ** client/client.ts: the timer of [runCmd] *)



(** ** src/Helpers.ts

    Strings are sequences of characters (code units); [split] with an
    empty splitter and [removeColor] go through them one by one. *)

Module Helpers.

(** [array.join(separator)] *)
Definition join (array : list string) (separator : string) : string :=
  String.concat separator array.

(** [string.split("")]: the characters, one string each. *)
Fixpoint characters (string : string) : list String.string :=
  match string with
  | EmptyString => []
  | String c string' => String c EmptyString :: characters string'
  end.

(** [string.split(splitter)] for a splitter that is not empty: the
    pieces between the occurrences of the splitter, found from the left
    and not overlapping, as the first piece and the others. While [skip]
    is positive the characters belong to the occurrence just found. *)
Fixpoint split_from (splitter : string) (skip : nat) (string : string)
  : String.string * list String.string :=
  match string with
  | EmptyString => (EmptyString, [])
  | String c string' =>
      match skip with
      | S skip' => split_from splitter skip' string'
      | O =>
          if String.prefix splitter (String c string')
          then
            let (piece, pieces) :=
              split_from splitter (String.length splitter - 1) string' in
            (EmptyString, piece :: pieces)
          else
            let (piece, pieces) := split_from splitter 0 string' in
            (String c piece, pieces)
      end
  end.

(** [string.split(splitter)]; the source casts the result to a
    [NonEmptyArray]. *)
Definition split (string splitter : string) : list String.string :=
  match splitter with
  | EmptyString => characters string
  | String _ _ =>
      let (piece, pieces) := split_from splitter 0 string in
      piece :: pieces
  end.

(** A [Set], by its elements in insertion order:
    [set.size === 1 ? Array.from(set)[0] : undefined]. *)
Definition getSetSingleton {T : Type} (set : list T) : option T :=
  if (List.length set =? 1)%nat then nth_error set 0 else None.

Definition ESC : ascii := ascii_of_nat 27.

Definition RESET_COLOR : string := String ESC "[0m".

Definition bold (string : string) : String.string :=
  RESET_COLOR ++ String ESC "[1m" ++ string ++ RESET_COLOR.

Definition dim (string : string) : String.string :=
  RESET_COLOR ++ String ESC "[2m" ++ string ++ RESET_COLOR.

(** [\d] *)
Definition isDigit (c : ascii) : bool :=
  (48 <=? nat_of_ascii c)%nat && (nat_of_ascii c <=? 57)%nat.

(** The length of what [\d+m] matches at the start of the string
    ([\d*m] once a digit has been seen). *)
Fixpoint digits_m (seenDigit : bool) (string : string) : option nat :=
  match string with
  | EmptyString => None
  | String c string' =>
      if isDigit c then option_map S (digits_m true string')
      else if seenDigit && Ascii.eqb c "m" then Some 1%nat
      else None
  end.

(** The length of what [/\x1B\[\d+m/] matches at the start of the
    string. *)
Definition colorCode (string : string) : option nat :=
  match string with
  | String c (String c' string') =>
      if Ascii.eqb c ESC && Ascii.eqb c' "["
      then option_map (fun n => S (S n)) (digits_m false string')
      else None
  | _ => None
  end.

(** [string.replace(/\x1B\[\d+m/g, "")]: every match, from the left, is
    left out. While [skip] is positive the characters belong to the match
    just found. *)
Fixpoint removeColor_from (skip : nat) (string : string) : String.string :=
  match string with
  | EmptyString => EmptyString
  | String c string' =>
      match skip with
      | S skip' => removeColor_from skip' string'
      | O =>
          match colorCode (String c string') with
          | Some n => removeColor_from (n - 1) string'
          | None => String c (removeColor_from 0 string')
          end
      end
  end.

Definition removeColor (string : string) : String.string :=
  removeColor_from 0 string.

End Helpers.

(** ** A concrete build, for the examples

    Standard mode, compiled at timestamp [0]. The protocol decoder of
    [client/WebSocketMessages.ts] is a parameter of the client; the
    stand-in here understands two frames and rejects everything else the
    way [JSON.parse] does. *)

Module Sample.

Import WebSocketMessages.

Definition decodeWebSocketToClientMessage (text : string)
  : Decode.Thrown + WebSocketToClientMessage :=
  if String.eqb text "AlreadyUpToDate"
  then inr (StatusChanged AlreadyUpToDate)
  else if String.eqb text "SuccessfullyCompiled"
  then inr (SuccessfullyCompiled "1+1" 42 standard)
  else inl (Decode.ThrownError "Unexpected token in JSON").

Definition env : Client.Env :=
  {| Client.INITIAL_ELM_COMPILED_TIMESTAMP := 0;
     Client.COMPILATION_MODE := mode standard;
     Client.decodeWebSocketToClientMessage := decodeWebSocketToClientMessage;
     Client.DecoderError_format := fun _ => "DecoderError";
     Client.Decode_repr := fun _ => "repr" |}.

Definition at_ (ms : Z) : Client.Date := {| Client.getTime := ms |}.

(** [window.Elm = { Main: { init: function, apps: [...] } }], with one
    [{ __elmWatchProgramType: type }] for each of the given types. *)
Definition initialized (types : list string) : Client.Window :=
  {| Client.Elm :=
       Client.Plain
         (JsObject
            [("Main",
              JsObject
                [("init", JsFunction);
                 ("apps",
                  JsArray
                    (map (fun type =>
                            JsObject
                              [("__elmWatchProgramType", JsString type)])
                       types))])]) |}.

(** The same build in proxy mode, before the first compilation. *)
Definition proxyEnv : Client.Env :=
  {| Client.INITIAL_ELM_COMPILED_TIMESTAMP := 0;
     Client.COMPILATION_MODE := proxy;
     Client.decodeWebSocketToClientMessage := decodeWebSocketToClientMessage;
     Client.DecoderError_format := fun _ => "DecoderError";
     Client.Decode_repr := fun _ => "repr" |}.

End Sample.

(** * Properties *)

Import Client.
Import WebSocketMessages (StatusChanged, SuccessfullyCompiled,
                          AlreadyUpToDate, ClientError).

(** ** Vocabulary of the statements *)


Definition isWebSocketClosed (msg : Msg) : bool :=
  match msg with
  | WebSocketClosed _ => true
  | _ => false
  end.

(** The number of closures in a sequence of messages. *)
Definition closures (msgs : list Msg) : Z :=
  Z.of_nat (List.length (filter isWebSocketClosed msgs)).

(** The message is a received frame that says [AlreadyUpToDate]. *)
Definition saysAlreadyUpToDate (env : Env) (msg : Msg) : Prop :=
  exists date data,
    msg = WebSocketMessageReceived date data
    /\ parseWebSocketMessageData env data
       = Success (StatusChanged AlreadyUpToDate).

(** The decoder of one value of the record: [functionToNull], then
    [multi]. *)
Definition ElmModule_entry : Decode.Decoder (list ProgramType) :=
  Decode.chain (fun v => inr (functionToNull v))
    (Decode.multi (ElmModule_mapping ElmModule)).

(** Modelled from the spec: the program loop [runTeaProgram] of
    [src/TeaProgram.ts] (not among the sources), as far as the commands
    go: the commands [update] returns for each dispatched message, in
    the order they are run. *)
Fixpoint commandsAll (env : Env) (msgs : list Msg) (model : Model)
  : list Cmd :=
  match msgs with
  | [] => []
  | msg :: msgs' =>
      (snd (update env msg model)
       ++ commandsAll env msgs' (fst (update env msg model)))%list
  end.

Definition isReconnect (cmd : Cmd) : bool :=
  match cmd with
  | Reconnect _ => true
  | _ => false
  end.

Definition isSleeping (status : Status) : bool :=
  match status with
  | SleepingBeforeReconnect _ _ => true
  | _ => false
  end.

(** The message is a received frame that says [SuccessfullyCompiled]
    with this code and timestamp, in the client's compilation mode. *)
Definition saysSuccessfullyCompiled
  (env : Env) (msg : Msg) (code : string) (timestamp : Z) : Prop :=
  exists date data compilationMode,
    msg = WebSocketMessageReceived date data
    /\ parseWebSocketMessageData env data
       = Success (SuccessfullyCompiled code timestamp compilationMode)
    /\ mode compilationMode = COMPILATION_MODE env.

(** The string without its first [n] characters. *)
Fixpoint drop (n : nat) (s : string) : string :=
  match n, s with
  | O, _ => s
  | S n', String _ s' => drop n' s'
  | S _, EmptyString => EmptyString
  end.

(** No character of the string is the escape character. *)
Fixpoint hasNoEscape (s : string) : bool :=
  match s with
  | EmptyString => true
  | String c s' => negb (Ascii.eqb c Helpers.ESC) && hasNoEscape s'
  end.

(** Following the specification: the program kinds the debugger does not
    support are the worker and the plain-render kind, ["Platform.worker"]
    and ["Html"]. *)
Definition debuggerIncompatible (kind : ProgramType) : Prop :=
  kind = Platform_worker \/ kind = Html.

(** Following the specification: the program kinds the debugger supports
    are the four sandboxed and interactive ones. *)
Definition debuggerCompatible (kind : ProgramType) : Prop :=
  kind = Browser_sandbox \/ kind = Browser_element
  \/ kind = Browser_document \/ kind = Browser_application.

(** Following the specification: the reason shown for a list of found
    kinds that starts with an incompatible one, spelled out: the distinct
    incompatible kinds, in the order they were first found, joined by
    "and". *)
Definition DisabledReason (found : list ProgramType) : string :=
  match found with
  | Html :: others =>
      if existsb (fun kind =>
                    match kind with Platform_worker => true | _ => false end)
           others
      then "The Elm debugger isn't supported by `Html` and `Platform.worker` programs."
      else "The Elm debugger isn't supported by `Html` programs."
  | Platform_worker :: others =>
      if existsb (fun kind => match kind with Html => true | _ => false end)
           others
      then "The Elm debugger isn't supported by `Platform.worker` and `Html` programs."
      else "The Elm debugger isn't supported by `Platform.worker` programs."
  | _ => ""
  end.

(** [new Set(array)] for elements of any type, given their equality:
    the distinct elements, in order of first insertion. *)
Definition Set_insert {T : Type} (eqb : T -> T -> bool) (set : list T) (x : T)
  : list T :=
  if existsb (eqb x) set then set else (set ++ [x])%list.

Definition Set_of {T : Type} (eqb : T -> T -> bool) (array : list T)
  : list T :=
  fold_left (Set_insert eqb) array [].

(** ** Backoff *)

Lemma retryWaitMs_capped (n : Z) : retryWaitMs n <= 60000.
Proof. unfold retryWaitMs. lia. Qed.

Lemma retryWaitMs_monotone (n m : Z) :
  0 <= n -> n <= m -> retryWaitMs n <= retryWaitMs m.
Proof.
  intros Hn Hnm. unfold retryWaitMs. rewrite !Z.pow_2_r.
  assert (n * n <= m * m) by nia. lia.
Qed.

(** C7: for every attempt number [n >= 1] the backoff is
    [min(1000 + 10 n^2, 60000)] milliseconds; it is monotone nondecreasing,
    lies in [[1010, 60000]], and is [1010] at [n = 1]. *)
Theorem retryWaitMs_backoff (n : Z) :
  1 <= n ->
  retryWaitMs n = Z.min (1000 + 10 * (n * n)) 60000
  /\ 1010 <= retryWaitMs n <= 60000
  /\ (forall m, n <= m -> retryWaitMs n <= retryWaitMs m)
  /\ retryWaitMs 1 = 1010.
Proof.
  intros Hn. repeat split.
  - unfold retryWaitMs. now rewrite Z.pow_2_r.
  - unfold retryWaitMs. rewrite Z.pow_2_r. nia.
  - apply retryWaitMs_capped.
  - intros m Hm. apply retryWaitMs_monotone; lia.
Qed.

(** The backoff at attempt 80, past the cap. *)
Lemma retryWaitMs_backoff_witness :
  1 <= 80
  /\ retryWaitMs 80 = Z.min (1000 + 10 * (80 * 80)) 60000
  /\ 1010 <= retryWaitMs 80 <= 60000
  /\ (forall m, 80 <= m -> retryWaitMs 80 <= retryWaitMs m)
  /\ retryWaitMs 1 = 1010.
Proof. split; [lia | apply (retryWaitMs_backoff 80); lia]. Defined.

Example retryWaitMs_values :
  map retryWaitMs [1; 2; 10; 76; 77; 1000] =
  [1010; 1040; 2000; 58760; 60000; 60000].
Proof. reflexivity. Qed.

(** ** The state machine *)

Lemma CompilationMode_eqb_eq (a b : CompilationMode) :
  CompilationMode_eqb a b = true <-> a = b.
Proof. destruct a, b; simpl; split; congruence. Qed.

Lemma CompilationMode_differs_spec
  (a : CompilationMode) (b : CompilationModeWithProxy) :
  CompilationMode_differs a b = true <-> mode a <> b.
Proof.
  destruct b as [b|]; simpl.
  - rewrite negb_true_iff. split.
    + intros H E. injection E as ->.
      destruct b; discriminate.
    + intros H. destruct (CompilationMode_eqb a b) eqn:E; [|reflexivity].
      apply CompilationMode_eqb_eq in E. congruence.
  - split; [discriminate | reflexivity].
Qed.

Lemma CompilationMode_differs_false
  (a : CompilationMode) (b : CompilationModeWithProxy) :
  CompilationMode_differs a b = false <-> mode a = b.
Proof.
  destruct b as [b|]; simpl.
  - rewrite negb_false_iff, CompilationMode_eqb_eq.
    split; congruence.
  - split; discriminate.
Qed.

Section StateMachine.

Variable env : Env.

Lemma update_WebSocketMessageReceived_Success date data message model :
  parseWebSocketMessageData env data = Success message ->
  update env (WebSocketMessageReceived date data) model =
  onWebSocketToClientMessage env date message model.
Proof. intros H. simpl. now rewrite H. Qed.

Lemma update_WebSocketMessageReceived_Error date data message model :
  parseWebSocketMessageData env data = Error message ->
  update env (WebSocketMessageReceived date data) model =
  (with_uiExpanded true
     (with_status (UnexpectedError date message) model), []).
Proof. intros H. simpl. now rewrite H. Qed.

(** C1: on [SuccessfullyCompiled(code, ts, mode)], if [canHotReload] is
    false or [mode] differs from the client's compilation mode, the
    model is kept and the only command is [ReloadPage] (no [Eval]);
    otherwise the status becomes [Idle] with the send key,
    [elmCompiledTimestamp] becomes [ts] and the command is [Eval code]. *)
Theorem SuccessfullyCompiled_reloads_or_evaluates
  date data code timestamp compilationMode model :
  parseWebSocketMessageData env data =
    Success (SuccessfullyCompiled code timestamp compilationMode) ->
  (canHotReload model = false
   \/ mode compilationMode <> COMPILATION_MODE env ->
   update env (WebSocketMessageReceived date data) model
     = (model, [ReloadPage])
   /\ forall code',
       ~ In (Eval code')
           (snd (update env (WebSocketMessageReceived date data) model)))
  /\ (canHotReload model = true
      /\ mode compilationMode = COMPILATION_MODE env ->
      update env (WebSocketMessageReceived date data) model
        = ({| status := Idle date SEND_KEY_DO_NOT_USE_ALL_THE_TIME;
              elmCompiledTimestamp := timestamp;
              canHotReload := true;
              uiExpanded := uiExpanded model |},
           [Eval code])).
Proof.
  intros Hparse.
  rewrite (update_WebSocketMessageReceived_Success _ _ _ _ Hparse).
  unfold onWebSocketToClientMessage. split.
  - intros Hgate.
    assert (negb (canHotReload model)
            || CompilationMode_differs compilationMode
                 (COMPILATION_MODE env) = true) as ->.
    { apply orb_true_iff. destruct Hgate as [H|H].
      - left. now rewrite H.
      - right. now apply CompilationMode_differs_spec. }
    split; [reflexivity|].
    intros code' [H|[]]. discriminate.
  - intros [Hhot Hmode].
    apply CompilationMode_differs_false in Hmode.
    rewrite Hhot, Hmode. simpl.
    unfold with_elmCompiledTimestamp, with_status. simpl.
    now rewrite Hhot.
Qed.

End StateMachine.

(** A matching-mode [SuccessfullyCompiled] frame on a model that can
    hot reload. *)
Lemma SuccessfullyCompiled_reloads_or_evaluates_witness :
  let model :=
    {| status := Idle (Sample.at_ 5) SEND_KEY_DO_NOT_USE_ALL_THE_TIME;
       elmCompiledTimestamp := 0;
       canHotReload := true;
       uiExpanded := false |} in
  let received :=
    WebSocketMessageReceived (Sample.at_ 9) (JsString "SuccessfullyCompiled") in
  parseWebSocketMessageData Sample.env (JsString "SuccessfullyCompiled")
    = Success (SuccessfullyCompiled "1+1" 42 standard)
  /\ update Sample.env received model
     = ({| status := Idle (Sample.at_ 9) SEND_KEY_DO_NOT_USE_ALL_THE_TIME;
           elmCompiledTimestamp := 42;
           canHotReload := true;
           uiExpanded := false |},
        [Eval "1+1"]).
Proof.
  split; [reflexivity|].
  apply (SuccessfullyCompiled_reloads_or_evaluates Sample.env
           (Sample.at_ 9) (JsString "SuccessfullyCompiled")
           "1+1" 42 standard);
    [reflexivity | split; reflexivity].
Defined.

Section Transitions.

Variable env : Env.

(** [statusChanged] sets [canHotReload] only for [AlreadyUpToDate]. *)
Lemma statusChanged_canHotReload date st model :
  canHotReload (statusChanged date st model) =
  match st with
  | AlreadyUpToDate => true
  | _ => canHotReload model
  end.
Proof. now destruct st. Qed.

Lemma reconnect_cases model date force :
  reconnect model date force = (model, [])
  \/ exists since n,
      status model = SleepingBeforeReconnect since n
      /\ reconnect model date force
         = (with_status (Connecting date n) model,
            [Reconnect (elmCompiledTimestamp model)]).
Proof.
  unfold reconnect.
  destruct (status model) as [| | | | |since n|] eqn:E; auto.
  destruct ((getTime date - getTime since >=? retryWaitMs n) || force);
    [right; now exists since, n | now left].
Qed.

(** A goal about a command that [reconnect] never emits. *)
Ltac no_such_command_in_reconnect model date force :=
  destruct (reconnect_cases model date force) as [->|(? & ? & _ & ->)];
  simpl; intuition discriminate.

Lemma reconnect_canHotReload model date force :
  canHotReload (fst (reconnect model date force)) = canHotReload model.
Proof.
  destruct (reconnect_cases model date force) as [->|(s & n & _ & ->)];
    reflexivity.
Qed.

(** One step: [canHotReload] is true afterwards only if it was before or
    the message said [AlreadyUpToDate]. *)
Lemma update_canHotReload msg model :
  canHotReload (fst (update env msg model)) = true ->
  canHotReload model = true \/ saysAlreadyUpToDate env msg.
Proof.
  unfold saysAlreadyUpToDate.
  destruct msg as [d| |d|d|d ui|d|d|d data]; simpl;
    try rewrite reconnect_canHotReload; auto.
  - destruct ui; simpl; try rewrite reconnect_canHotReload; auto.
  - destruct (parseWebSocketMessageData env data) as [m|m] eqn:E;
      simpl; auto.
    destruct m as [st|code ts cm]; simpl.
    + rewrite statusChanged_canHotReload.
      destruct st; auto. intros _. right. now exists d, data.
    + destruct (negb (canHotReload model)
                || CompilationMode_differs cm (COMPILATION_MODE env));
        simpl; auto.
Qed.

(** C2: [canHotReload] is false in the initial model; a transition
    leaves it true only if it already was or if the message is a
    received [StatusChanged] with status [AlreadyUpToDate]; and that
    transition does make it true. *)
Theorem canHotReload_only_after_AlreadyUpToDate :
  (forall date, canHotReload (fst (init env date)) = false)
  /\ (forall msg model,
        canHotReload (fst (update env msg model)) = true ->
        canHotReload model = true
        \/ exists date data,
            msg = WebSocketMessageReceived date data
            /\ parseWebSocketMessageData env data
               = Success (StatusChanged AlreadyUpToDate))
  /\ (forall date data model,
        parseWebSocketMessageData env data
          = Success (StatusChanged AlreadyUpToDate) ->
        canHotReload (fst (update env (WebSocketMessageReceived date data)
                             model)) = true).
Proof.
  split; [reflexivity | split].
  - exact update_canHotReload.
  - intros date data model H.
    now rewrite (update_WebSocketMessageReceived_Success _ _ _ _ _ H).
Qed.

(** [update] never turns [canHotReload] off either: only a fresh
    [init] (a page load) does. *)
Lemma canHotReload_kept msg model :
  canHotReload model = true ->
  canHotReload (fst (update env msg model)) = true.
Proof.
  intros H.
  destruct msg as [d| |d|d|d ui|d|d|d data]; simpl;
    try rewrite reconnect_canHotReload; auto.
  - destruct ui; simpl; try rewrite reconnect_canHotReload; auto.
  - destruct (parseWebSocketMessageData env data) as [m|m]; simpl; auto.
    destruct m as [st|code ts cm]; simpl.
    + rewrite statusChanged_canHotReload. now destruct st.
    + now destruct (negb (canHotReload model)
                    || CompilationMode_differs cm (COMPILATION_MODE env)).
Qed.

(** Over a whole run: if [canHotReload] is true at the end, it was true
    at the start or some message said [AlreadyUpToDate]. *)
Lemma canHotReload_in_run msgs : forall model,
  canHotReload (dispatchAll env msgs model) = true ->
  canHotReload model = true \/ Exists (saysAlreadyUpToDate env) msgs.
Proof.
  unfold dispatchAll.
  induction msgs as [|msg msgs IH]; intros model H; simpl in *; [now left|].
  destruct (IH _ H) as [Hstep|Hlater].
  - destruct (update_canHotReload msg model Hstep) as [Hm|Hmsg];
      [now left|].
    right. now constructor.
  - right. now constructor 2.
Qed.

(** Code is evaluated in place only when [canHotReload] is true. *)
Lemma Eval_needs_canHotReload msg model code :
  In (Eval code) (snd (update env msg model)) ->
  canHotReload model = true.
Proof.
  destruct msg as [d| |d|d|d ui|d|d|d data]; simpl.
  - intros [].
  - destruct (status model); simpl; intuition discriminate.
  - no_such_command_in_reconnect model d true.
  - no_such_command_in_reconnect model d false.
  - destruct ui; simpl; try intuition discriminate.
    no_such_command_in_reconnect model d true.
  - intuition discriminate.
  - intros [].
  - destruct (parseWebSocketMessageData env data) as [m|m]; simpl;
      [intros []|].
    destruct m as [st|c ts cm]; simpl; [intros []|].
    destruct (canHotReload model); [reflexivity|].
    simpl. intuition discriminate.
Qed.

(** The render that [run] appends leaves the model and the other
    commands as [update] gave them. *)
Lemma update_and_render_spec msg model :
  update_and_render env msg model
  = (fst (update env msg model),
     (snd (update env msg model)
      ++ [Render (fst (update env msg model))
            match msg with UiMsg_ _ _ => true | _ => false end])%list).
Proof. unfold update_and_render. now destruct (update env msg model). Qed.

(** What the handlers of the rendered view can dispatch. *)
Lemma view_ChangedCompilationMode model info compilationMode sendKey :
  In (ChangedCompilationMode compilationMode sendKey) (view model info) ->
  exists since, status model = Idle since sendKey.
Proof.
  unfold view. intros H. apply in_app_or in H.
  destruct H as [H|[H|[]]]; [|discriminate].
  destruct (uiExpanded model); [|destruct H].
  unfold viewStatus, viewCompilationModeChooser in H.
  destruct (status model) as [| | | |since key|since n|].
  - now destruct (initializedElmAppsStatus info).
  - destruct H.
  - destruct H.
  - destruct H.
  - exists since. now destruct key, sendKey.
  - destruct H as [H|[]]. discriminate.
  - destruct H.
Qed.

Lemma reconnect_no_SendMessage model date force message sendKey :
  ~ In (SendMessage message sendKey) (snd (reconnect model date force)).
Proof. no_such_command_in_reconnect model date force. Qed.

(** C3, amended: [update] emits [SendMessage] only with the send key of
    an [Idle] status of the model (for [FocusedTab]) or with the send
    key the message itself carries (a UI [ChangedCompilationMode],
    whatever the model's status); and for every UI message the view of
    the current model can dispatch, the status is [Idle]. *)
Theorem SendMessage_needs_send_key msg model message sendKey :
  In (SendMessage message sendKey) (snd (update env msg model)) ->
  ((exists since, msg = FocusedTab /\ status model = Idle since sendKey)
   \/ exists date compilationMode,
       msg = UiMsg_ date (ChangedCompilationMode compilationMode sendKey))
  /\ (forall info date uiMsg,
        msg = UiMsg_ date uiMsg ->
        In uiMsg (view model info) ->
        exists since, status model = Idle since sendKey).
Proof.
  intros Hin.
  assert ((exists since, msg = FocusedTab
                         /\ status model = Idle since sendKey)
          \/ exists date compilationMode,
              msg = UiMsg_ date
                      (ChangedCompilationMode compilationMode sendKey))
    as Hcase.
  { destruct msg as [d| |d|d|d ui|d|d|d data]; simpl in Hin.
    - destruct Hin.
    - left. destruct (status model) as [| | | |since key| |];
        try now destruct Hin.
      destruct Hin as [H|[]]. injection H as _ ->. now exists since.
    - now apply reconnect_no_SendMessage in Hin.
    - now apply reconnect_no_SendMessage in Hin.
    - destruct ui as [cm key| |]; simpl in Hin.
      + destruct Hin as [H|[]]. injection H as _ ->.
        right. now exists d, cm.
      + destruct Hin.
      + now apply reconnect_no_SendMessage in Hin.
    - destruct Hin as [H|[]]. discriminate.
    - destruct Hin.
    - destruct (parseWebSocketMessageData env data) as [m|m];
        simpl in Hin; [destruct Hin|].
      destruct m as [st|code ts cm]; simpl in Hin; [destruct Hin|].
      destruct (negb (canHotReload model)
                || CompilationMode_differs cm (COMPILATION_MODE env));
        destruct Hin as [H|[]]; discriminate. }
  split; [exact Hcase|].
  intros info date uiMsg -> Hview.
  destruct Hcase as [(since & H & _)|(d & cm & H)]; [discriminate|].
  injection H as _ ->.
  now apply view_ChangedCompilationMode in Hview.
Qed.

End Transitions.

(** [FocusedTab] on an [Idle] model. *)
Lemma SendMessage_needs_send_key_witness :
  let model :=
    {| status := Idle (Sample.at_ 5) SEND_KEY_DO_NOT_USE_ALL_THE_TIME;
       elmCompiledTimestamp := 0;
       canHotReload := true;
       uiExpanded := true |} in
  In (SendMessage WebSocketMessages.FocusedTab SEND_KEY_DO_NOT_USE_ALL_THE_TIME)
     (snd (update Sample.env FocusedTab model))
  /\ ((exists since,
         FocusedTab = FocusedTab
         /\ status model = Idle since SEND_KEY_DO_NOT_USE_ALL_THE_TIME)
      \/ exists date compilationMode,
          FocusedTab
          = UiMsg_ date
              (ChangedCompilationMode compilationMode
                 SEND_KEY_DO_NOT_USE_ALL_THE_TIME)).
Proof.
  split; [left; reflexivity|].
  apply (SendMessage_needs_send_key Sample.env FocusedTab
           {| status := Idle (Sample.at_ 5) SEND_KEY_DO_NOT_USE_ALL_THE_TIME;
              elmCompiledTimestamp := 0;
              canHotReload := true;
              uiExpanded := true |}
           WebSocketMessages.FocusedTab SEND_KEY_DO_NOT_USE_ALL_THE_TIME).
  left; reflexivity.
Defined.

(** C3, as stated, fails: a [ChangedCompilationMode] UI message carries
    its own send key, and [update] sends with it although the model is
    [Busy], not [Idle]. *)
Lemma ChangedCompilationMode_sends_while_Busy :
  let model :=
    {| status := Busy (Sample.at_ 5) None;
       elmCompiledTimestamp := 0;
       canHotReload := false;
       uiExpanded := true |} in
  status model = Busy (Sample.at_ 5) None
  /\ snd (update Sample.env
            (UiMsg_ (Sample.at_ 9)
               (ChangedCompilationMode debug SEND_KEY_DO_NOT_USE_ALL_THE_TIME))
            model)
     = [SendMessage (WebSocketMessages.ChangedCompilationMode debug)
          SEND_KEY_DO_NOT_USE_ALL_THE_TIME].
Proof. split; reflexivity. Qed.

(** ** Reconnection *)

Section Reconnection.

Variable env : Env.

Lemma reconnect_attemptNumber model date force :
  attemptNumber_in (status (fst (reconnect model date force)))
  = attemptNumber_in (status model).
Proof.
  destruct (reconnect_cases model date force) as [->|(s & n & E & ->)];
    [reflexivity|]. simpl. now rewrite E.
Qed.




(** C5: in [SleepingBeforeReconnect(n)], entered at [since], the timer
    wake at [date] moves to [Connecting(n)] and emits [Reconnect] with
    the model's [elmCompiledTimestamp] if and only if
    [date - since >= retryWaitMs n] (otherwise nothing changes); the
    forced wakes do the same whatever the elapsed time. *)
Theorem wake_from_SleepingBeforeReconnect model since n date :
  status model = SleepingBeforeReconnect since n ->
  let woken :=
    ({| status := Connecting date n;
        elmCompiledTimestamp := elmCompiledTimestamp model;
        canHotReload := canHotReload model;
        uiExpanded := uiExpanded model |},
     [Reconnect (elmCompiledTimestamp model)]) in
  (update env (SleepBeforeReconnectDone date) model = woken
   <-> retryWaitMs n <= getTime date - getTime since)
  /\ (getTime date - getTime since < retryWaitMs n ->
      update env (SleepBeforeReconnectDone date) model = (model, []))
  /\ update env (PageVisibilityChangedToVisible date) model = woken
  /\ update env (UiMsg_ date PressedReconnectNow) model = woken.
Proof.
  intros Hs woken. subst woken. simpl. unfold reconnect. rewrite Hs.
  rewrite orb_false_r, orb_true_r.
  destruct (Z.geb_spec (getTime date - getTime since) (retryWaitMs n))
    as [Hge|Hlt].
  - repeat split; auto; lia.
  - repeat split; auto.
    + intros H. discriminate.
    + lia.
Qed.

(** C10: when the status is not [SleepingBeforeReconnect], the forced
    wakes ([PageVisibilityChangedToVisible], [PressedReconnectNow])
    return the model as it is and no command, so no [Reconnect]. *)
Theorem forced_wake_elsewhere_is_noop model date :
  (forall since n, status model <> SleepingBeforeReconnect since n) ->
  update env (PageVisibilityChangedToVisible date) model = (model, [])
  /\ update env (UiMsg_ date PressedReconnectNow) model = (model, []).
Proof.
  intros Hs. simpl. unfold reconnect.
  destruct (status model) as [| | | | |since n|]; auto.
  now destruct (Hs since n).
Qed.

(** C6: when decoding the data of a [WebSocketMessageReceived] throws,
    the status becomes [UnexpectedError] with the message of
    [parseWebSocketMessageData], which ends with the thrown error's own
    text, unchanged (the [DecoderError]'s [format()], an [Error]'s
    [message]); [uiExpanded] becomes true, nothing else changes and no
    command is emitted. *)
Theorem decode_failure_yields_UnexpectedError date data thrown model :
  parseWebSocketMessageData_try env data = inl thrown ->
  update env (WebSocketMessageReceived date data) model
  = ({| status :=
          UnexpectedError date
            ("Failed to decode web socket message sent from the server:"
             ++ newline ++ possiblyDecodeErrorToString env thrown);
        elmCompiledTimestamp := elmCompiledTimestamp model;
        canHotReload := canHotReload model;
        uiExpanded := true |},
     [])
  /\ possiblyDecodeErrorToString env thrown
     = match thrown with
       | Decode.ThrownDecoderError error => DecoderError_format env error
       | Decode.ThrownError message => message
       | Decode.ThrownValue value => Decode_repr env value
       end.
Proof.
  intros H. split; [|reflexivity].
  apply update_WebSocketMessageReceived_Error.
  unfold parseWebSocketMessageData. now rewrite H.
Qed.

(** Every frame is handled one way or the other: [update] on a
    received message is either the typed message's transition or the
    [UnexpectedError] one. *)
Lemma WebSocketMessageReceived_handled date data model :
  (exists message,
      parseWebSocketMessageData_try env data = inr message
      /\ update env (WebSocketMessageReceived date data) model
         = onWebSocketToClientMessage env date message model)
  \/ (exists thrown,
        parseWebSocketMessageData_try env data = inl thrown
        /\ exists message,
            status (fst (update env (WebSocketMessageReceived date data)
                           model))
            = UnexpectedError date message).
Proof.
  destruct (parseWebSocketMessageData_try env data) as [thrown|message] eqn:E.
  - right. exists thrown. split; [reflexivity|].
    rewrite (update_WebSocketMessageReceived_Error env date data
               ("Failed to decode web socket message sent from the server:"
                ++ newline ++ possiblyDecodeErrorToString env thrown)).
    + simpl. eexists. reflexivity.
    + unfold parseWebSocketMessageData. now rewrite E.
  - left. exists message. split; [reflexivity|].
    apply update_WebSocketMessageReceived_Success.
    unfold parseWebSocketMessageData. now rewrite E.
Qed.

(** A frame that is not text never reaches the protocol decoder. *)
Lemma non_string_frame_fails data :
  (forall s, data <> JsString s) ->
  parseWebSocketMessageData_try env data
  = inl (Decode.ThrownDecoderError
           {| Decode.variant := Decode.ExpectedString data;
              Decode.path := [] |}).
Proof.
  intros H. unfold parseWebSocketMessageData_try.
  destruct data; try reflexivity. now destruct (H s).
Qed.

End Reconnection.

(** Attempt 2, woken 1040 ms after it fell asleep. *)
Lemma wake_from_SleepingBeforeReconnect_witness :
  let model :=
    {| status := SleepingBeforeReconnect (Sample.at_ 100) 2;
       elmCompiledTimestamp := 42;
       canHotReload := true;
       uiExpanded := false |} in
  let woken :=
    ({| status := Connecting (Sample.at_ 1140) 2;
        elmCompiledTimestamp := 42;
        canHotReload := true;
        uiExpanded := false |},
     [Reconnect 42]) in
  status model = SleepingBeforeReconnect (Sample.at_ 100) 2
  /\ (update Sample.env (SleepBeforeReconnectDone (Sample.at_ 1140)) model
      = woken
      <-> retryWaitMs 2 <= 1140 - 100)
  /\ (1140 - 100 < retryWaitMs 2 ->
      update Sample.env (SleepBeforeReconnectDone (Sample.at_ 1140)) model
      = (model, []))
  /\ update Sample.env (PageVisibilityChangedToVisible (Sample.at_ 1140))
       model = woken
  /\ update Sample.env (UiMsg_ (Sample.at_ 1140) PressedReconnectNow) model
     = woken.
Proof.
  split; [reflexivity|].
  apply (wake_from_SleepingBeforeReconnect Sample.env
           {| status := SleepingBeforeReconnect (Sample.at_ 100) 2;
              elmCompiledTimestamp := 42;
              canHotReload := true;
              uiExpanded := false |}
           (Sample.at_ 100) 2 (Sample.at_ 1140)).
  reflexivity.
Defined.

(** Scenario C: a closure while [Connecting(1)] sleeps as attempt 2; the
    timer wake is ignored before [retryWaitMs 2 = 1040] ms have passed and
    reconnects once they have. *)
Example scenario_C :
  let closed :=
    fst (update Sample.env (WebSocketClosed (Sample.at_ 100))
           (fst (init Sample.env (Sample.at_ 0)))) in
  status closed = SleepingBeforeReconnect (Sample.at_ 100) 2
  /\ update Sample.env (SleepBeforeReconnectDone (Sample.at_ 1139)) closed
     = (closed, [])
  /\ update Sample.env (SleepBeforeReconnectDone (Sample.at_ 1140)) closed
     = (with_status (Connecting (Sample.at_ 1140) 2) closed, [Reconnect 0]).
Proof. repeat split. Qed.

(** Forced wakes on a [Busy] model. *)
Lemma forced_wake_elsewhere_is_noop_witness :
  let model :=
    {| status := Busy (Sample.at_ 5) None;
       elmCompiledTimestamp := 0;
       canHotReload := false;
       uiExpanded := false |} in
  (forall since n, status model <> SleepingBeforeReconnect since n)
  /\ update Sample.env (PageVisibilityChangedToVisible (Sample.at_ 9)) model
     = (model, [])
  /\ update Sample.env (UiMsg_ (Sample.at_ 9) PressedReconnectNow) model
     = (model, []).
Proof.
  split; [intros since n; discriminate|].
  apply (forced_wake_elsewhere_is_noop Sample.env
           {| status := Busy (Sample.at_ 5) None;
              elmCompiledTimestamp := 0;
              canHotReload := false;
              uiExpanded := false |}
           (Sample.at_ 9)).
  intros since n; discriminate.
Defined.

(** A frame the protocol decoder rejects. *)
Lemma decode_failure_yields_UnexpectedError_witness :
  let model :=
    {| status := Busy (Sample.at_ 5) None;
       elmCompiledTimestamp := 0;
       canHotReload := false;
       uiExpanded := false |} in
  parseWebSocketMessageData_try Sample.env (JsString "{")
  = inl (Decode.ThrownError "Unexpected token in JSON")
  /\ update Sample.env (WebSocketMessageReceived (Sample.at_ 9) (JsString "{"))
       model
     = ({| status :=
             UnexpectedError (Sample.at_ 9)
               ("Failed to decode web socket message sent from the server:"
                ++ newline ++ "Unexpected token in JSON");
           elmCompiledTimestamp := 0;
           canHotReload := false;
           uiExpanded := true |},
        []).
Proof.
  split; [reflexivity|].
  apply (decode_failure_yields_UnexpectedError Sample.env (Sample.at_ 9)
           (JsString "{") (Decode.ThrownError "Unexpected token in JSON")
           {| status := Busy (Sample.at_ 5) None;
              elmCompiledTimestamp := 0;
              canHotReload := false;
              uiExpanded := false |}).
  reflexivity.
Defined.


(** Scenarios A and B. *)
Example scenario_A :
  let start := fst (init Sample.env (Sample.at_ 0)) in
  let upToDate :=
    update Sample.env
      (WebSocketMessageReceived (Sample.at_ 1) (JsString "AlreadyUpToDate"))
      start in
  let compiled :=
    update Sample.env
      (WebSocketMessageReceived (Sample.at_ 2)
         (JsString "SuccessfullyCompiled"))
      (fst upToDate) in
  status (fst upToDate) = Idle (Sample.at_ 1) SEND_KEY_DO_NOT_USE_ALL_THE_TIME
  /\ canHotReload (fst upToDate) = true
  /\ status (fst compiled) = Idle (Sample.at_ 2) SEND_KEY_DO_NOT_USE_ALL_THE_TIME
  /\ elmCompiledTimestamp (fst compiled) = 42
  /\ snd compiled = [Eval "1+1"].
Proof. repeat split. Qed.

Example scenario_B :
  let start := fst (init Sample.env (Sample.at_ 0)) in
  canHotReload start = false
  /\ update Sample.env
       (WebSocketMessageReceived (Sample.at_ 2)
          (JsString "SuccessfullyCompiled"))
       start
     = (start, [ReloadPage]).
Proof. split; reflexivity. Qed.

(** ** Program introspection *)

Lemma record_cons {T : Type} (decoder : Decode.Decoder T)
  (key : string) (v : JsValue) (object : list (string * JsValue)) :
  Decode.record decoder (JsObject ((key, v) :: object))
  = if String.eqb key "__proto__"
    then Decode.record decoder (JsObject object)
    else match decoder v with
         | inl error => inl (Decode.at_ error (Decode.KeyString key))
         | inr t =>
             match Decode.record decoder (JsObject object) with
             | inl error => inl error
             | inr result => inr ((key, t) :: result)
             end
         end.
Proof. reflexivity. Qed.

Lemma ElmModule_cons
  (key : string) (v : JsValue) (object : list (string * JsValue)) :
  ElmModule (JsObject ((key, v) :: object))
  = if String.eqb key "__proto__"
    then ElmModule (JsObject object)
    else match ElmModule_entry v with
         | inl error => inl (Decode.at_ error (Decode.KeyString key))
         | inr types =>
             match ElmModule (JsObject object) with
             | inl error => inl error
             | inr result => inr (types ++ result)%list
             end
         end.
Proof.
  simpl. destruct (String.eqb key "__proto__"); [reflexivity|].
  now destruct v.
Qed.

(** [ElmModule] is the decoder the source builds from the combinators. *)
Lemma ElmModule_unfold (value : JsValue) :
  ElmModule value
  = Decode.chain
      (Decode.record
         (Decode.chain (fun v => inr (functionToNull v))
            (Decode.multi (ElmModule_mapping ElmModule))))
      (fun record => inr (flatValues record))
      value.
Proof.
  fold ElmModule_entry. unfold Decode.chain at 1.
  destruct value as [| | | | | | |object]; try reflexivity.
  induction object as [|[key v] object IH]; [reflexivity|].
  rewrite ElmModule_cons, record_cons.
  destruct (String.eqb key "__proto__"); [exact IH|].
  destruct (ElmModule_entry v) as [error|types]; [reflexivity|].
  rewrite IH.
  now destruct (Decode.record ElmModule_entry (JsObject object)).
Qed.

Lemma ProgramType_eqb_eq (a b : ProgramType) :
  ProgramType_eqb a b = true <-> a = b.
Proof. destruct a, b; split; intros H; try reflexivity; discriminate. Qed.

Lemma existsb_ProgramType_eqb (x : ProgramType) (s : list ProgramType) :
  existsb (ProgramType_eqb x) s = true <-> In x s.
Proof.
  rewrite existsb_exists. split.
  - intros (y & Hy & E). apply ProgramType_eqb_eq in E. now subst.
  - intros H. exists x. split; [assumption|]. now apply ProgramType_eqb_eq.
Qed.

Lemma Set_add_In (s : list ProgramType) (x y : ProgramType) :
  In y (Set_add s x) <-> In y s \/ y = x.
Proof.
  unfold Set_add. destruct (existsb (ProgramType_eqb x) s) eqn:E.
  - apply existsb_ProgramType_eqb in E. split; [auto|].
    intros [H| ->]; assumption.
  - rewrite in_app_iff. simpl. intuition.
Qed.

Lemma Set_add_NoDup (s : list ProgramType) (x : ProgramType) :
  NoDup s -> NoDup (Set_add s x).
Proof.
  intros H. unfold Set_add.
  destruct (existsb (ProgramType_eqb x) s) eqn:E; [assumption|].
  apply NoDup_app; [assumption | repeat constructor; intros [] |].
  intros y Hy [<-|[]].
  apply existsb_ProgramType_eqb in Hy. congruence.
Qed.

Lemma fold_Set_add_In (array : list ProgramType) :
  forall s y, In y (fold_left Set_add array s) <-> In y s \/ In y array.
Proof.
  induction array as [|x array IH]; intros s y; simpl.
  - intuition.
  - rewrite IH, Set_add_In. intuition.
Qed.

Lemma fold_Set_add_NoDup (array : list ProgramType) :
  forall s, NoDup s -> NoDup (fold_left Set_add array s).
Proof.
  induction array as [|x array IH]; intros s H; simpl; [assumption|].
  apply IH. now apply Set_add_NoDup.
Qed.

(** [new Set(array)] holds the elements of the array, each once. *)
Lemma new_Set_In (array : list ProgramType) (y : ProgramType) :
  In y (new_Set array) <-> In y array.
Proof. unfold new_Set. rewrite fold_Set_add_In. simpl. intuition. Qed.

Lemma new_Set_NoDup (array : list ProgramType) : NoDup (new_Set array).
Proof. apply fold_Set_add_NoDup. constructor. Qed.

(** [array.filter(f).length === array.length] says that [f] holds of
    every element. *)
Lemma filter_length_all {A : Type} (f : A -> bool) (l : list A) :
  (List.length (filter f l) =? List.length l)%nat = true
  <-> Forall (fun x => f x = true) l.
Proof.
  rewrite Nat.eqb_eq. induction l as [|x l IH]; simpl.
  - split; constructor.
  - pose proof (filter_length_le f l) as Hle.
    destruct (f x) eqn:E; simpl.
    + split.
      * intros H. injection H as H. constructor; [assumption|].
        now apply IH.
      * intros H. inversion H; subst. f_equal. now apply IH.
    + split; [lia|]. intros H. inversion H; congruence.
Qed.

Lemma forallb_Forall {A : Type} (f : A -> bool) (l : list A) :
  forallb f l = true <-> Forall (fun x => f x = true) l.
Proof.
  induction l as [|x l IH]; simpl.
  - split; constructor.
  - rewrite andb_true_iff, IH. split.
    + intros [Hx Hl]. now constructor.
    + intros H. inversion H. now split.
Qed.

Lemma filter_all {A : Type} (f : A -> bool) (l : list A) :
  Forall (fun x => f x = true) l -> filter f l = l.
Proof.
  induction 1 as [|x l Hx _ IH]; simpl; [reflexivity|].
  now rewrite Hx, IH.
Qed.

(** At most two program types lack debugger support, so a set of them is
    always joined by the word alone. *)
Lemma noDebugger_set_small (s : list ProgramType) :
  NoDup s ->
  Forall (fun x => noDebuggerFilter x = true) s ->
  (List.length s <= 2)%nat.
Proof.
  intros Hnd Hall.
  apply (NoDup_incl_length Hnd (l' := [Platform_worker; Html])).
  intros x Hx. rewrite Forall_forall in Hall. specialize (Hall x Hx).
  destruct x; try discriminate; simpl; auto.
Qed.

Lemma humanList_small (list : list string) (joinWord : string) :
  (List.length list <= 2)%nat ->
  humanList list joinWord = String.concat (" " ++ joinWord ++ " ") list.
Proof.
  intros H. unfold humanList, join.
  destruct list as [|a [|b [|c list]]]; simpl in *; try reflexivity; lia.
Qed.

(** The filter of the code picks the kinds the specification calls
    incompatible, and no other. *)
Lemma noDebuggerFilter_incompatible (kind : ProgramType) :
  noDebuggerFilter kind = true <-> debuggerIncompatible kind.
Proof.
  unfold debuggerIncompatible.
  destruct kind; simpl; split; auto; try discriminate;
    intros [H|H]; discriminate.
Qed.

Lemma noDebuggerFilter_compatible (kind : ProgramType) :
  noDebuggerFilter kind = false <-> debuggerCompatible kind.
Proof.
  unfold debuggerCompatible.
  destruct kind; simpl; split; auto; try discriminate;
    intros [H|[H|[H|H]]]; discriminate.
Qed.

Lemma forallb_debuggerIncompatible (found : list ProgramType) :
  forallb noDebuggerFilter found = true
  <-> Forall debuggerIncompatible found.
Proof.
  rewrite forallb_Forall. split; apply Forall_impl; intros kind;
    apply noDebuggerFilter_incompatible.
Qed.

(** Once both incompatible kinds are in the set, it stays as it is. *)
Lemma fold_Set_add_both (first second : ProgramType)
  (others : list ProgramType) :
  (first = Html /\ second = Platform_worker
   \/ first = Platform_worker /\ second = Html) ->
  Forall debuggerIncompatible others ->
  fold_left Set_add others [first; second] = [first; second].
Proof.
  intros Hboth. induction 1 as [|kind others Hkind _ IH]; [reflexivity|].
  simpl. replace (Set_add [first; second] kind) with [first; second];
    [exact IH|].
  destruct Hboth as [[-> ->]|[-> ->]]; now destruct Hkind as [->| ->].
Qed.

Lemma new_Set_Html (others : list ProgramType) :
  Forall debuggerIncompatible others ->
  new_Set (Html :: others)
  = if existsb (fun kind =>
                  match kind with Platform_worker => true | _ => false end)
         others
    then [Html; Platform_worker]
    else [Html].
Proof.
  unfold new_Set. simpl fold_left.
  change (Set_add [] Html) with [Html].
  induction 1 as [|kind others Hkind Hothers IH]; [reflexivity|].
  destruct Hkind as [->| ->]; simpl.
  - change (Set_add [Html] Platform_worker) with [Html; Platform_worker].
    apply fold_Set_add_both; auto.
  - exact IH.
Qed.

Lemma new_Set_Platform_worker (others : list ProgramType) :
  Forall debuggerIncompatible others ->
  new_Set (Platform_worker :: others)
  = if existsb (fun kind => match kind with Html => true | _ => false end)
         others
    then [Platform_worker; Html]
    else [Platform_worker].
Proof.
  unfold new_Set. simpl fold_left.
  change (Set_add [] Platform_worker) with [Platform_worker].
  induction 1 as [|kind others Hkind Hothers IH]; [reflexivity|].
  destruct Hkind as [->| ->]; simpl.
  - exact IH.
  - change (Set_add [Platform_worker] Html) with [Platform_worker; Html].
    apply fold_Set_add_both; auto.
Qed.

(** The reason the code builds is the one spelled out. *)
Lemma noDebuggerReason_spelled_out (found : list ProgramType) :
  found <> [] ->
  Forall debuggerIncompatible found ->
  noDebuggerReason (new_Set found) = DisabledReason found.
Proof.
  intros Hne Hall. destruct found as [|kind others]; [now destruct Hne|].
  inversion Hall as [|? ? Hkind Hothers]; subst.
  destruct Hkind as [->| ->]; unfold DisabledReason.
  - rewrite (new_Set_Platform_worker _ Hothers).
    now destruct (existsb _ others).
  - rewrite (new_Set_Html _ Hothers).
    now destruct (existsb _ others).
Qed.

Section Introspection.

Variable env : Env.

Lemma checkInitializedElmAppsStatus_found (window : Window)
  (found : list ProgramType) :
  ProgramTypes window = inr found ->
  checkInitializedElmAppsStatus env window
  = match found with
    | [] => NoProgramsAtAll
    | _ :: _ =>
        DebuggerModeStatus
          (if forallb noDebuggerFilter found
           then Disabled (noDebuggerReason (new_Set found))
           else Enabled)
    end.
Proof.
  intros H. unfold checkInitializedElmAppsStatus. rewrite H.
  destruct found as [|t found]; [reflexivity|].
  change (List.length (t :: found) =? 0)%nat with false. cbv iota.
  destruct (forallb noDebuggerFilter (t :: found)) eqn:E.
  - apply forallb_Forall in E.
    rewrite (filter_all _ _ E).
    now rewrite Nat.eqb_refl.
  - destruct (List.length (filter noDebuggerFilter (t :: found))
              =? List.length (t :: found))%nat eqn:L; [|reflexivity].
    apply filter_length_all, forallb_Forall in L.
    congruence.
Qed.

(** C8, amended: introspection returns [NoProgramsAtAll] exactly when
    decoding the registry yields no program kind; when decoding fails it
    returns [DecodeError] with the error's text, except in proxy mode,
    where it returns [DebuggerModeStatus Enabled]; and it returns
    [DebuggerModeStatus (Disabled reason)] exactly when at least one
    program kind was found and every found kind is ["Platform.worker"] or
    ["Html"], the reason then naming each distinct such kind once, in the
    order first found, joined by "and". *)
Theorem checkInitializedElmAppsStatus_cases (window : Window) :
  (forall error,
      ProgramTypes window = inl error ->
      checkInitializedElmAppsStatus env window
      = match COMPILATION_MODE env with
        | proxy => DebuggerModeStatus Enabled
        | mode _ => DecodeError (DecoderError_format env error)
        end)
  /\ (checkInitializedElmAppsStatus env window = NoProgramsAtAll
      <-> ProgramTypes window = inr [])
  /\ (forall reason,
        checkInitializedElmAppsStatus env window
        = DebuggerModeStatus (Disabled reason)
        <-> exists found,
            ProgramTypes window = inr found
            /\ found <> []
            /\ Forall debuggerIncompatible found
            /\ reason = DisabledReason found)
  /\ (forall found,
        ProgramTypes window = inr found ->
        Forall debuggerIncompatible found ->
        NoDup (new_Set found)
        /\ (forall t, In t (new_Set found) <-> In t found)
        /\ noDebuggerReason (new_Set found)
           = "The Elm debugger isn't supported by "
             ++ String.concat " and "
                  (map (fun t => "`" ++ ProgramType_toString t ++ "`")
                     (new_Set found))
             ++ " programs.").
Proof.
  split; [|split; [|split]].
  - intros error H. unfold checkInitializedElmAppsStatus. now rewrite H.
  - split.
    + destruct (ProgramTypes window) as [error|found] eqn:E.
      * unfold checkInitializedElmAppsStatus. rewrite E.
        destruct (COMPILATION_MODE env); discriminate.
      * rewrite (checkInitializedElmAppsStatus_found _ _ E).
        destruct found; [reflexivity | discriminate].
    + intros H. now rewrite (checkInitializedElmAppsStatus_found _ _ H).
  - intros reason. split.
    + destruct (ProgramTypes window) as [error|found] eqn:E.
      * unfold checkInitializedElmAppsStatus. rewrite E.
        destruct (COMPILATION_MODE env); discriminate.
      * rewrite (checkInitializedElmAppsStatus_found _ _ E).
        destruct found as [|t found]; [discriminate|].
        destruct (forallb noDebuggerFilter (t :: found)) eqn:A;
          [|discriminate].
        apply forallb_debuggerIncompatible in A.
        intros H. injection H as <-.
        exists (t :: found). repeat split; try discriminate; [exact A|].
        apply noDebuggerReason_spelled_out; [discriminate | exact A].
    + intros (found & E & Hne & Hall & ->).
      rewrite (checkInitializedElmAppsStatus_found _ _ E).
      destruct found as [|t found]; [congruence|].
      rewrite (noDebuggerReason_spelled_out _ Hne Hall).
      apply forallb_debuggerIncompatible in Hall. now rewrite Hall.
  - intros found _ Hall.
    split; [apply new_Set_NoDup | split; [apply new_Set_In|]].
    unfold noDebuggerReason. rewrite humanList_small; [reflexivity|].
    rewrite length_map.
    apply noDebugger_set_small; [apply new_Set_NoDup|].
    rewrite Forall_forall in *. intros t Ht.
    apply noDebuggerFilter_incompatible, Hall. now apply new_Set_In.
Qed.

End Introspection.

(** A registry with one plain-render program and nothing else. *)
Lemma checkInitializedElmAppsStatus_cases_witness :
  checkInitializedElmAppsStatus Sample.env (Sample.initialized ["Html"])
  = DebuggerModeStatus
      (Disabled "The Elm debugger isn't supported by `Html` programs.").
Proof.
  apply (checkInitializedElmAppsStatus_cases Sample.env
           (Sample.initialized ["Html"])).
  exists [Html]. repeat split.
  - discriminate.
  - constructor; [now right | constructor].
Defined.

(** C8, as stated, fails on a registry in which no program was found:
    every found kind is then incompatible, there being none, and the
    result is [NoProgramsAtAll], not [Disabled]. *)
Lemma no_program_found_is_not_Disabled :
  let window := Sample.initialized [] in
  ProgramTypes window = inr []
  /\ Forall debuggerIncompatible []
  /\ checkInitializedElmAppsStatus Sample.env window = NoProgramsAtAll.
Proof. repeat split. constructor. Qed.

(** In proxy mode the registry is the guard, whose [ownKeys] trap makes
    the decoder throw: the status is [Enabled] whatever the placeholder
    holds. In any other mode the guard's error text is shown. *)
Lemma checkInitializedElmAppsStatus_guarded
  (env : Env) (target : Proxy.Target) :
  checkInitializedElmAppsStatus env {| Elm := Guarded target |}
  = match COMPILATION_MODE env with
    | proxy => DebuggerModeStatus Enabled
    | mode _ =>
        DecodeError
          (DecoderError_format env
             {| Decode.variant := Decode.Custom (Proxy.message Proxy.error);
                Decode.path := [Decode.KeyString "Elm"] |})
    end.
Proof. reflexivity. Qed.

(** Scenario D: one program of the plain-render kind and nothing else. *)
Example scenario_D :
  ProgramTypes (Sample.initialized ["Html"]) = inr [Html]
  /\ checkInitializedElmAppsStatus Sample.env (Sample.initialized ["Html"])
     = DebuggerModeStatus
         (Disabled "The Elm debugger isn't supported by `Html` programs.").
Proof. split; reflexivity. Qed.

Example introspection_examples :
  checkInitializedElmAppsStatus Sample.env
    (Sample.initialized ["Html"; "Platform.worker"; "Html"])
  = DebuggerModeStatus
      (Disabled
         "The Elm debugger isn't supported by `Html` and `Platform.worker` programs.")
  /\ checkInitializedElmAppsStatus Sample.env
       (Sample.initialized ["Html"; "Browser.element"])
     = DebuggerModeStatus Enabled
  /\ checkInitializedElmAppsStatus Sample.env (Sample.initialized [])
     = NoProgramsAtAll
  /\ checkInitializedElmAppsStatus Sample.env {| Elm := Plain JsUndefined |}
     = DecodeError "DecoderError"
  /\ checkInitializedElmAppsStatus Sample.proxyEnv
       {| Elm := Plain JsUndefined |}
     = DebuggerModeStatus Enabled
  /\ ProgramTypes (Sample.initialized ["Elm"])
     = inl {| Decode.variant :=
                Decode.UnknownStringUnionVariant
                  ["Platform.worker"; "Browser.sandbox"; "Browser.element";
                   "Browser.document"; "Browser.application"; "Html"]
                  "Elm";
              Decode.path :=
                [Decode.KeyString "Elm"; Decode.KeyString "Main";
                 Decode.KeyString "apps"; Decode.KeyIndex 0;
                 Decode.KeyString "__elmWatchProgramType"] |}.
Proof. repeat split. Qed.

(** ** The interception guard *)

Lemma Reflect_get_find (target : Proxy.Target) (property : Proxy.PropertyKey) :
  Proxy.Reflect_get target property
  = match Proxy.find target property with
    | Some value => value
    | None => JsUndefined
    end.
Proof. reflexivity. Qed.

(** A symbol's [toString()] starts with [Symbol(], so a symbol is never
    let through by the underscore rule. *)
Lemma symbol_not_underscore (description : string) :
  Proxy.startsWith (Proxy.toString (Proxy.SymbolKey description)) "_" = false.
Proof. reflexivity. Qed.

Lemma get_of_defined (target : Proxy.Target) (property : Proxy.PropertyKey)
  (value : JsValue) :
  Proxy.find target property = Some value ->
  value <> JsUndefined ->
  Proxy.get target property = Proxy.Return value.
Proof.
  intros Hfind Hdef. unfold Proxy.get. rewrite Reflect_get_find, Hfind.
  destruct value; try reflexivity. now destruct Hdef.
Qed.

Lemma get_of_undefined (target : Proxy.Target) (property : Proxy.PropertyKey) :
  Proxy.Reflect_get target property = JsUndefined ->
  Proxy.get target property
  = if Proxy.startsWith (Proxy.toString property) "_"
    then Proxy.Return JsUndefined
    else Proxy.Throw Proxy.error.
Proof. intros H. unfold Proxy.get. now rewrite H. Qed.

(** C9, amended: reading a property that is found neither on the
    placeholder (its prototype chain included) nor by the underscore rule
    throws the one fixed error; so do a presence check of a property that
    is not found, a descriptor lookup of a property the object does not
    own, and every key enumeration. A property that is found with a value
    other than [undefined] is read unchanged; presence checks and
    descriptor lookups succeed for every property that exists; a name
    starting with an underscore is always read without throwing. A
    property that exists but holds [undefined] is read like an absent
    one. *)
Theorem elmProxy_traps (target : Proxy.Target) (property : Proxy.PropertyKey) :
  (Proxy.find target property = None ->
   Proxy.startsWith (Proxy.toString property) "_" = false ->
   Proxy.get target property = Proxy.Throw Proxy.error)
  /\ (Proxy.find target property = None ->
      Proxy.has target property = Proxy.Throw Proxy.error)
  /\ (Proxy.lookup (Proxy.own target) property = None ->
      Proxy.getOwnPropertyDescriptor target property
      = Proxy.Throw Proxy.error)
  /\ Proxy.ownKeys target = Proxy.Throw Proxy.error
  /\ (forall value,
        Proxy.find target property = Some value ->
        value <> JsUndefined ->
        Proxy.get target property = Proxy.Return value)
  /\ (forall value,
        Proxy.find target property = Some value ->
        Proxy.has target property = Proxy.Return true)
  /\ (forall value,
        Proxy.lookup (Proxy.own target) property = Some value ->
        Proxy.getOwnPropertyDescriptor target property
        = Proxy.Return {| Proxy.value := value |})
  /\ (Proxy.startsWith (Proxy.toString property) "_" = true ->
      Proxy.get target property
      = Proxy.Return (Proxy.Reflect_get target property))
  /\ (Proxy.find target property = Some JsUndefined ->
      Proxy.startsWith (Proxy.toString property) "_" = false ->
      Proxy.get target property = Proxy.Throw Proxy.error).
Proof.
  repeat split.
  - intros Hfind Hname. rewrite get_of_undefined, Hname; [reflexivity|].
    now rewrite Reflect_get_find, Hfind.
  - intros Hfind. unfold Proxy.has, Proxy.Reflect_has. now rewrite Hfind.
  - intros Hown.
    unfold Proxy.getOwnPropertyDescriptor,
      Proxy.Reflect_getOwnPropertyDescriptor.
    now rewrite Hown.
  - apply get_of_defined.
  - intros value Hfind. unfold Proxy.has, Proxy.Reflect_has.
    now rewrite Hfind.
  - intros value Hown.
    unfold Proxy.getOwnPropertyDescriptor,
      Proxy.Reflect_getOwnPropertyDescriptor.
    now rewrite Hown.
  - intros Hname. unfold Proxy.get. rewrite Hname.
    now rewrite orb_true_r.
  - intros Hfind Hname. rewrite get_of_undefined, Hname; [reflexivity|].
    now rewrite Reflect_get_find, Hfind.
Qed.

(** C9, as stated, fails for reads: a property that exists on the
    placeholder and holds [undefined] is not passed through. The presence
    check and the descriptor lookup report it, reading it throws. *)
Lemma existing_undefined_property_throws :
  let target :=
    {| Proxy.own := [(Proxy.StringKey "Main", JsUndefined)];
       Proxy.prototypeChain := [] |} in
  Proxy.has target (Proxy.StringKey "Main") = Proxy.Return true
  /\ Proxy.getOwnPropertyDescriptor target (Proxy.StringKey "Main")
     = Proxy.Return {| Proxy.value := JsUndefined |}
  /\ Proxy.get target (Proxy.StringKey "Main") = Proxy.Throw Proxy.error.
Proof. repeat split. Qed.

(** Scenario E: the guard around an empty placeholder. *)
Example scenario_E :
  let empty := Proxy.proxied None [] in
  let populated :=
    Proxy.proxied
      (Some {| Proxy.own := [(Proxy.StringKey "_prepared", JsString "yes");
                             (Proxy.StringKey "Main", JsFunction)];
               Proxy.prototypeChain := [] |})
      [] in
  Proxy.get empty (Proxy.StringKey "Main") = Proxy.Throw Proxy.error
  /\ Proxy.has empty (Proxy.StringKey "Main") = Proxy.Throw Proxy.error
  /\ Proxy.ownKeys empty = Proxy.Throw Proxy.error
  /\ Proxy.get empty (Proxy.StringKey "_isMockFunction")
     = Proxy.Return JsUndefined
  /\ Proxy.get populated (Proxy.StringKey "_prepared")
     = Proxy.Return (JsString "yes")
  /\ Proxy.get populated (Proxy.StringKey "Main") = Proxy.Return JsFunction
  /\ Proxy.get populated (Proxy.SymbolKey "Symbol.iterator")
     = Proxy.Throw Proxy.error.
Proof. repeat split. Qed.

(** * Further properties *)

(** ** src/Helpers.ts *)

Lemma concat_String (sep : string) (c : ascii) (piece : string)
  (pieces : list string) :
  String.concat sep (String c piece :: pieces)
  = String c (String.concat sep (piece :: pieces)).
Proof. now destruct pieces. Qed.

Lemma concat_two (sep first second : string) (others : list string) :
  String.concat sep (first :: second :: others)
  = first ++ sep ++ String.concat sep (second :: others).
Proof. reflexivity. Qed.

Lemma concat_characters (s : string) :
  String.concat "" (Helpers.characters s) = s.
Proof.
  induction s as [|c s IH]; [reflexivity|].
  simpl Helpers.characters. rewrite concat_String. f_equal.
  destruct (Helpers.characters s) as [|x l] eqn:E; [exact IH|].
  exact IH.
Qed.

Lemma prefix_drop (a s : string) :
  String.prefix a s = true -> s = a ++ drop (String.length a) s.
Proof.
  revert s. induction a as [|c a IH]; intros s H; [reflexivity|].
  destruct s as [|c' s]; [discriminate|]. simpl in H.
  destruct (Ascii.ascii_dec c c') as [<-|]; [|discriminate].
  simpl. f_equal. now apply IH.
Qed.

Lemma prefix_length (a s : string) :
  String.prefix a s = true -> (String.length a <= String.length s)%nat.
Proof.
  revert s. induction a as [|c a IH]; intros s H; simpl; [lia|].
  destruct s as [|c' s]; [discriminate|]. simpl in *.
  destruct (Ascii.ascii_dec c c'); [|discriminate].
  specialize (IH s H). lia.
Qed.

Lemma split_from_here (splitter : string) (c : ascii) (s : string) :
  Helpers.split_from splitter 0 (String c s)
  = if String.prefix splitter (String c s)
    then
      let (piece, pieces) :=
        Helpers.split_from splitter (String.length splitter - 1) s in
      ("", piece :: pieces)
    else
      let (piece, pieces) := Helpers.split_from splitter 0 s in
      (String c piece, pieces).
Proof. reflexivity. Qed.

(** Joining what [split_from] returns gives the string back, less the
    characters that were to be skipped. *)
Lemma concat_split_from (splitter : string) :
  splitter <> "" ->
  forall (s : string) (skip : nat),
    (skip <= String.length s)%nat ->
    String.concat splitter
      (fst (Helpers.split_from splitter skip s)
         :: snd (Helpers.split_from splitter skip s))
    = drop skip s.
Proof.
  intros Hne. induction s as [|c s IH]; intros skip Hskip.
  - destruct skip; [reflexivity | simpl in Hskip; lia].
  - destruct skip as [|skip].
    + rewrite split_from_here. simpl drop.
      destruct (String.prefix splitter (String c s)) eqn:P.
      * pose proof (prefix_drop _ _ P) as E.
        pose proof (prefix_length _ _ P) as L.
        destruct splitter as [|c' splitter']; [now destruct Hne|].
        simpl in E. injection E as <- E. simpl in L.
        replace (String.length (String c splitter') - 1)%nat
          with (String.length splitter') by (simpl; lia).
        specialize (IH (String.length splitter') ltac:(lia)).
        destruct (Helpers.split_from (String c splitter')
                    (String.length splitter') s) as [piece pieces].
        cbn [fst snd] in *.
        rewrite concat_two, IH. simpl. f_equal. exact (eq_sym E).
      * specialize (IH 0%nat ltac:(lia)).
        destruct (Helpers.split_from splitter 0 s) as [piece pieces].
        cbn [fst snd] in *.
        rewrite concat_String. f_equal. exact IH.
    + simpl. apply IH. simpl in Hskip. lia.
Qed.

(** X1: [split] then [join] with the same string gives the input back,
    whatever the splitter. *)
Theorem join_split (string splitter : string) :
  Helpers.join (Helpers.split string splitter) splitter = string.
Proof.
  unfold Helpers.join, Helpers.split.
  destruct splitter as [|c splitter'].
  - apply concat_characters.
  - pose proof (concat_split_from (String c splitter') ltac:(discriminate)
                  string 0%nat ltac:(lia)) as H.
    now destruct (Helpers.split_from (String c splitter') 0 string).
Qed.

(** X2: the result of [split] is a non-empty array, as the source's cast
    says, except for the empty string split by the empty string. *)
Theorem split_empty_iff (string splitter : string) :
  Helpers.split string splitter = []
  <-> string = "" /\ splitter = "".
Proof.
  unfold Helpers.split. split.
  - destruct splitter as [|c splitter'].
    + destruct string; [auto | discriminate].
    + now destruct (Helpers.split_from (String c splitter') 0 string).
  - now intros [-> ->].
Qed.

(** The pieces: an occurrence of the splitter at the front ends an empty
    piece, any other character goes to the first piece. *)
Lemma split_at_occurrence (c : ascii) (splitter rest : string) :
  Helpers.split (String c splitter ++ rest) (String c splitter)
  = "" :: Helpers.split rest (String c splitter).
Proof.
  unfold Helpers.split.
  change (String c splitter ++ rest) with (String c (splitter ++ rest)).
  rewrite split_from_here.
  assert (String.prefix (String c splitter) (String c (splitter ++ rest))
          = true) as ->.
  { simpl. destruct (Ascii.ascii_dec c c); [|congruence].
    clear. induction splitter as [|a splitter IH]; [now destruct rest|].
    simpl. now destruct (Ascii.ascii_dec a a). }
  replace (String.length (String c splitter) - 1)%nat
    with (String.length splitter) by (simpl; lia).
  assert (forall u, Helpers.split_from (String c splitter)
                      (String.length u) (u ++ rest)
                    = Helpers.split_from (String c splitter) 0 rest) as ->.
  { induction u as [|a u IH]; [reflexivity|]. simpl. exact IH. }
  now destruct (Helpers.split_from (String c splitter) 0 rest).
Qed.

Lemma removeColor_from_here (c : ascii) (s : string) :
  Helpers.removeColor_from 0 (String c s)
  = match Helpers.colorCode (String c s) with
    | Some n => Helpers.removeColor_from (n - 1) s
    | None => String c (Helpers.removeColor_from 0 s)
    end.
Proof. reflexivity. Qed.

Lemma colorCode_not_escape (c : ascii) (s : string) :
  Ascii.eqb c Helpers.ESC = false -> Helpers.colorCode (String c s) = None.
Proof.
  intros H. destruct s as [|c' s]; simpl; [reflexivity | now rewrite H].
Qed.

(** A string without escape characters goes through [removeColor]
    unchanged, also in front of another string. *)
Lemma removeColor_plain_prefix (s rest : string) :
  hasNoEscape s = true ->
  Helpers.removeColor_from 0 (s ++ rest)
  = s ++ Helpers.removeColor_from 0 rest.
Proof.
  induction s as [|c s IH]; intros H; [reflexivity|].
  simpl in H. apply andb_true_iff in H as [Hc Hs].
  apply negb_true_iff in Hc.
  change (String c s ++ rest) with (String c (s ++ rest)).
  rewrite removeColor_from_here, (colorCode_not_escape _ _ Hc).
  simpl. f_equal. now apply IH.
Qed.

Lemma append_empty (s : string) : s ++ "" = s.
Proof. induction s as [|c s IH]; simpl; congruence. Qed.

Lemma digits_m_RESET (s : string) : forall seenDigit,
  Helpers.digits_m seenDigit (s ++ Helpers.RESET_COLOR)
  = Helpers.digits_m seenDigit s.
Proof.
  induction s as [|c s IH]; intros seenDigit.
  - now destruct seenDigit.
  - simpl. now rewrite IH.
Qed.

Lemma colorCode_RESET (c : ascii) (s : string) :
  Helpers.colorCode (String c s ++ Helpers.RESET_COLOR)
  = Helpers.colorCode (String c s).
Proof.
  destruct s as [|c' s].
  - simpl. now rewrite andb_false_r.
  - simpl. now rewrite digits_m_RESET.
Qed.

Lemma digits_m_length (s : string) : forall seenDigit n,
  Helpers.digits_m seenDigit s = Some n -> (n <= String.length s)%nat.
Proof.
  induction s as [|c s IH]; intros seenDigit n H; [discriminate|].
  simpl in *. destruct (Helpers.isDigit c).
  - destruct (Helpers.digits_m true s) as [k|] eqn:E; [|discriminate].
    injection H as <-. specialize (IH _ _ E). lia.
  - destruct (seenDigit && Ascii.eqb c "m"); [|discriminate].
    injection H as <-. lia.
Qed.

Lemma colorCode_length (s : string) (n : nat) :
  Helpers.colorCode s = Some n -> (1 <= n <= String.length s)%nat.
Proof.
  destruct s as [|c [|c' s]]; try discriminate. simpl.
  destruct (Ascii.eqb c Helpers.ESC && Ascii.eqb c' "["); [|discriminate].
  destruct (Helpers.digits_m false s) as [k|] eqn:E; [|discriminate].
  intros H. injection H as <-.
  pose proof (digits_m_length _ _ _ E). lia.
Qed.

(** A reset code at the end is removed, whatever comes before it. *)
Lemma removeColor_from_RESET (s : string) : forall skip,
  (skip <= String.length s)%nat ->
  Helpers.removeColor_from skip (s ++ Helpers.RESET_COLOR)
  = Helpers.removeColor_from skip s.
Proof.
  induction s as [|c s IH]; intros skip Hskip.
  - destruct skip; [reflexivity | simpl in Hskip; lia].
  - destruct skip as [|skip].
    + change (String c s ++ Helpers.RESET_COLOR)
        with (String c (s ++ Helpers.RESET_COLOR)).
      rewrite !removeColor_from_here.
      change (String c (s ++ Helpers.RESET_COLOR))
        with (String c s ++ Helpers.RESET_COLOR).
      rewrite colorCode_RESET.
      destruct (Helpers.colorCode (String c s)) as [n|] eqn:E.
      * apply colorCode_length in E. simpl in E. apply IH. lia.
      * f_equal. apply IH. lia.
    + simpl. apply IH. simpl in Hskip. lia.
Qed.

(** A colour code at the front is removed. *)
Lemma removeColor_code_front (digit : ascii) (s : string) :
  Helpers.isDigit digit = true ->
  Helpers.removeColor
    (String Helpers.ESC (String "[" (String digit (String "m" s))))
  = Helpers.removeColor s.
Proof.
  intros H. unfold Helpers.removeColor.
  rewrite removeColor_from_here.
  unfold Helpers.colorCode. cbn [Helpers.digits_m].
  rewrite H. reflexivity.
Qed.

Lemma removeColor_wrapped (digit : ascii) (s : string) :
  Helpers.isDigit digit = true ->
  Helpers.removeColor
    (Helpers.RESET_COLOR
     ++ String Helpers.ESC (String "[" (String digit "m"))
     ++ s ++ Helpers.RESET_COLOR)
  = Helpers.removeColor s.
Proof.
  intros H.
  change (Helpers.RESET_COLOR
          ++ String Helpers.ESC (String "[" (String digit "m"))
          ++ s ++ Helpers.RESET_COLOR)
    with (String Helpers.ESC
            (String "[" (String "0" (String "m"
               (String Helpers.ESC
                  (String "[" (String digit (String "m"
                     (s ++ Helpers.RESET_COLOR))))))))).
  rewrite (removeColor_code_front "0" _ eq_refl).
  rewrite (removeColor_code_front digit _ H).
  unfold Helpers.removeColor. apply removeColor_from_RESET. lia.
Qed.

(** X3: [removeColor] undoes [bold] and [dim]: with or without them, the
    result is the same. *)
Theorem removeColor_bold_dim (string : string) :
  Helpers.removeColor (Helpers.bold string) = Helpers.removeColor string
  /\ Helpers.removeColor (Helpers.dim string) = Helpers.removeColor string.
Proof.
  split.
  - exact (removeColor_wrapped "1" string eq_refl).
  - exact (removeColor_wrapped "2" string eq_refl).
Qed.

(** X4: on a string without escape characters, [removeColor] changes
    nothing, and it gives the string back from its [bold] and [dim]
    forms. *)
Theorem removeColor_plain (string : string) :
  hasNoEscape string = true ->
  Helpers.removeColor string = string
  /\ Helpers.removeColor (Helpers.bold string) = string
  /\ Helpers.removeColor (Helpers.dim string) = string.
Proof.
  intros H.
  assert (Helpers.removeColor string = string) as Hplain.
  { unfold Helpers.removeColor.
    rewrite <- (append_empty string) at 1.
    rewrite (removeColor_plain_prefix _ _ H). apply append_empty. }
  repeat split; [exact Hplain | |].
  - exact (eq_trans (removeColor_wrapped "1" string eq_refl) Hplain).
  - exact (eq_trans (removeColor_wrapped "2" string eq_refl) Hplain).
Qed.

(** The plain text [elm-watch]. *)
Lemma removeColor_plain_witness :
  hasNoEscape "elm-watch" = true
  /\ Helpers.removeColor "elm-watch" = "elm-watch"
  /\ Helpers.removeColor (Helpers.bold "elm-watch") = "elm-watch"
  /\ Helpers.removeColor (Helpers.dim "elm-watch") = "elm-watch".
Proof.
  split; [reflexivity|].
  apply (removeColor_plain "elm-watch"); reflexivity.
Defined.

(** [removeColor] is not idempotent: removing a code can bring the two
    halves of another one together. *)
Example removeColor_twice :
  let s := String Helpers.ESC (String Helpers.ESC "[1m[2mx") in
  Helpers.removeColor s = String Helpers.ESC "[2mx"
  /\ Helpers.removeColor (Helpers.removeColor s) = "x".
Proof. split; reflexivity. Qed.

Section SetOfArray.

Variable T : Type.
Variable eqb : T -> T -> bool.
Hypothesis eqb_eq : forall a b, eqb a b = true <-> a = b.






End SetOfArray.


Example getSetSingleton_examples :
  Helpers.getSetSingleton (Set_of String.eqb ["elm"; "elm"]) = Some "elm"
  /\ Helpers.getSetSingleton (Set_of String.eqb ["elm"; "watch"]) = None
  /\ Helpers.getSetSingleton (Set_of String.eqb []) = None.
Proof. repeat split. Qed.

(** ** The state machine, over whole runs *)

Section Runs.

Variable env : Env.

Lemma dispatchAll_cons msg msgs model :
  dispatchAll env (msg :: msgs) model
  = dispatchAll env msgs (fst (update env msg model)).
Proof. reflexivity. Qed.

(** One step: a message other than a closure gives no attempt number
    that was not there; a closure gives 1 or one more than before. *)
Lemma update_attemptNumber_origin msg model n :
  attemptNumber_in (status (fst (update env msg model))) = Some n ->
  if isWebSocketClosed msg
  then n = 1 \/ attemptNumber_in (status model) = Some (n - 1)
  else attemptNumber_in (status model) = Some n.
Proof.
  destruct msg as [d| |d|d|d ui|d|d|d data]; simpl;
    try rewrite reconnect_attemptNumber; try discriminate; auto.
  - destruct ui; simpl; try rewrite reconnect_attemptNumber;
      try discriminate; auto.
  - destruct (attemptNumber_in (status model)) as [m|];
      intros H; injection H as <-; [right | now left].
    f_equal. lia.
  - destruct (parseWebSocketMessageData env data) as [m|m]; simpl;
      [discriminate|].
    destruct m as [st|code ts cm]; simpl; [now destruct st|].
    now destruct (negb (canHotReload model)
                  || CompilationMode_differs cm (COMPILATION_MODE env)).
Qed.

Lemma dispatchAll_attemptNumber_bounds msgs : forall model bound n,
  (forall m, attemptNumber_in (status model) = Some m -> 1 <= m <= bound) ->
  1 <= bound ->
  attemptNumber_in (status (dispatchAll env msgs model)) = Some n ->
  1 <= n <= bound + closures msgs.
Proof.
  unfold closures.
  induction msgs as [|msg msgs IH]; intros model bound n Hmodel Hbound Hn.
  - simpl in *. specialize (Hmodel n Hn). lia.
  - rewrite dispatchAll_cons in Hn.
    assert (forall m,
               attemptNumber_in (status (fst (update env msg model)))
               = Some m ->
               1 <= m <= bound + (if isWebSocketClosed msg then 1 else 0))
      as Hstep.
    { intros m Hm. apply update_attemptNumber_origin in Hm.
      destruct (isWebSocketClosed msg).
      - destruct Hm as [->|Hm]; [lia|]. specialize (Hmodel _ Hm). lia.
      - specialize (Hmodel _ Hm). lia. }
    specialize (IH _ _ n Hstep ltac:(destruct (isWebSocketClosed msg); lia) Hn).
    simpl filter. destruct (isWebSocketClosed msg); simpl List.length; lia.
Qed.

(** X6: from a page load on, an attempt number is at least 1 and at most one
    more than the number of closures so far; so whenever the client
    sleeps or connects, the wait for its attempt is between 1010 ms and
    a minute. *)
Theorem attemptNumber_since_init date msgs n :
  attemptNumber_in (status (dispatchAll env msgs (fst (init env date))))
  = Some n ->
  1 <= n <= 1 + closures msgs
  /\ 1010 <= retryWaitMs n <= 60000.
Proof.
  intros H.
  assert (1 <= n <= 1 + closures msgs) as Hn.
  { apply (dispatchAll_attemptNumber_bounds msgs (fst (init env date)) 1 n);
      [|lia|exact H].
    simpl. intros m Hm. injection Hm as <-. lia. }
  split; [exact Hn|]. split; [|apply retryWaitMs_capped].
  unfold retryWaitMs. rewrite Z.pow_2_r. nia.
Qed.

(** Only a closure puts the client to sleep. *)
Lemma update_isSleeping msg model :
  isWebSocketClosed msg = false ->
  isSleeping (status model) = false ->
  isSleeping (status (fst (update env msg model))) = false.
Proof.
  intros Hmsg Hs.
  destruct msg as [d| |d|d|d ui|d|d|d data]; simpl; auto; try discriminate.
  - destruct (reconnect_cases model d true) as [->|(s & n & _ & ->)]; auto.
  - destruct (reconnect_cases model d false) as [->|(s & n & _ & ->)]; auto.
  - destruct ui; simpl; auto.
    destruct (reconnect_cases model d true) as [->|(s & n & _ & ->)]; auto.
  - destruct (parseWebSocketMessageData env data) as [m|m]; simpl; auto.
    destruct m as [st|code ts cm]; simpl; [now destruct st|].
    now destruct (negb (canHotReload model)
                  || CompilationMode_differs cm (COMPILATION_MODE env)).
Qed.

(** One step emits at most one [Reconnect]; if it emits one, the client
    was asleep and no longer is. *)
Lemma update_Reconnect msg model :
  filter isReconnect (snd (update env msg model)) = []
  \/ (exists timestamp,
        filter isReconnect (snd (update env msg model))
        = [Reconnect timestamp])
     /\ isSleeping (status model) = true
     /\ isSleeping (status (fst (update env msg model))) = false.
Proof.
  assert (forall d force,
             filter isReconnect (snd (reconnect model d force)) = []
             \/ (exists timestamp,
                   filter isReconnect (snd (reconnect model d force))
                   = [Reconnect timestamp])
                /\ isSleeping (status model) = true
                /\ isSleeping (status (fst (reconnect model d force)))
                   = false) as Hreconnect.
  { intros d force.
    destruct (reconnect_cases model d force) as [->|(s & n & E & ->)];
      [now left|].
    right. rewrite E. simpl. eauto. }
  destruct msg as [d| |d|d|d ui|d|d|d data]; simpl; auto.
  - left. now destruct (status model).
  - destruct ui; simpl; auto.
  - destruct (parseWebSocketMessageData env data) as [m|m]; simpl; auto.
    destruct m as [st|code ts cm]; simpl; auto.
    now destruct (negb (canHotReload model)
                  || CompilationMode_differs cm (COMPILATION_MODE env));
      left.
Qed.

Lemma commandsAll_awake msgs : forall model,
  forallb (fun msg => negb (isWebSocketClosed msg)) msgs = true ->
  isSleeping (status model) = false ->
  filter isReconnect (commandsAll env msgs model) = [].
Proof.
  induction msgs as [|msg msgs IH]; intros model Hall Hs; [reflexivity|].
  simpl in Hall. apply andb_true_iff in Hall as [Hmsg Hall].
  apply negb_true_iff in Hmsg.
  simpl. rewrite filter_app.
  rewrite (IH _ Hall (update_isSleeping _ _ Hmsg Hs)).
  destruct (update_Reconnect msg model) as [->|(_ & Hwas & _)];
    [reflexivity | congruence].
Qed.

(** X7: between two closures the client reconnects at most once, however
    many timers fire and however often the user asks for it. *)
Theorem one_Reconnect_per_closure msgs model :
  forallb (fun msg => negb (isWebSocketClosed msg)) msgs = true ->
  (List.length (filter isReconnect (commandsAll env msgs model)) <= 1)%nat.
Proof.
  revert model.
  induction msgs as [|msg msgs IH]; intros model Hall; [simpl; lia|].
  simpl in Hall. apply andb_true_iff in Hall as [Hmsg Hall].
  simpl. rewrite filter_app, length_app.
  destruct (update_Reconnect msg model) as [->|((t & ->) & _ & Hawake)].
  - specialize (IH (fst (update env msg model)) Hall). simpl. lia.
  - rewrite (commandsAll_awake _ _ Hall Hawake). simpl. lia.
Qed.

(** X8: code is evaluated only after the server has once said
    [AlreadyUpToDate] since the page was loaded. *)
Theorem Eval_only_after_AlreadyUpToDate date msgs msg code :
  In (Eval code)
     (snd (update env msg (dispatchAll env msgs (fst (init env date))))) ->
  Exists (saysAlreadyUpToDate env) msgs.
Proof.
  intros H. apply Eval_needs_canHotReload in H.
  apply canHotReload_in_run in H. destruct H as [H|H]; [discriminate|].
  exact H.
Qed.

End Runs.

(** Two closures with a timer wake that comes too early in between. *)
Lemma attemptNumber_since_init_witness :
  let msgs :=
    [WebSocketClosed (Sample.at_ 10);
     SleepBeforeReconnectDone (Sample.at_ 20);
     WebSocketClosed (Sample.at_ 30)] in
  attemptNumber_in
    (status
       (dispatchAll Sample.env msgs (fst (init Sample.env (Sample.at_ 0)))))
  = Some 3
  /\ 1 <= 3 <= 1 + closures msgs
  /\ 1010 <= retryWaitMs 3 <= 60000.
Proof.
  split; [reflexivity|].
  apply (attemptNumber_since_init Sample.env (Sample.at_ 0)
           [WebSocketClosed (Sample.at_ 10);
            SleepBeforeReconnectDone (Sample.at_ 20);
            WebSocketClosed (Sample.at_ 30)] 3).
  reflexivity.
Defined.

(** A sleeping client woken by the button, then by a late timer and by
    the page becoming visible. *)
Lemma one_Reconnect_per_closure_witness :
  let msgs :=
    [UiMsg_ (Sample.at_ 20) PressedReconnectNow;
     SleepBeforeReconnectDone (Sample.at_ 5000);
     PageVisibilityChangedToVisible (Sample.at_ 6000)] in
  let model :=
    {| status := SleepingBeforeReconnect (Sample.at_ 10) 2;
       elmCompiledTimestamp := 0;
       canHotReload := false;
       uiExpanded := false |} in
  forallb (fun msg => negb (isWebSocketClosed msg)) msgs = true
  /\ (List.length (filter isReconnect (commandsAll Sample.env msgs model))
      <= 1)%nat.
Proof.
  split; [reflexivity|].
  apply (one_Reconnect_per_closure Sample.env
           [UiMsg_ (Sample.at_ 20) PressedReconnectNow;
            SleepBeforeReconnectDone (Sample.at_ 5000);
            PageVisibilityChangedToVisible (Sample.at_ 6000)]
           {| status := SleepingBeforeReconnect (Sample.at_ 10) 2;
              elmCompiledTimestamp := 0;
              canHotReload := false;
              uiExpanded := false |}).
  reflexivity.
Defined.

(** Scenario A again: the frame that is evaluated follows an
    [AlreadyUpToDate]. *)
Lemma Eval_only_after_AlreadyUpToDate_witness :
  let msgs :=
    [WebSocketConnected (Sample.at_ 1);
     WebSocketMessageReceived (Sample.at_ 2) (JsString "AlreadyUpToDate")] in
  let msg :=
    WebSocketMessageReceived (Sample.at_ 3) (JsString "SuccessfullyCompiled") in
  In (Eval "1+1")
     (snd (update Sample.env msg
             (dispatchAll Sample.env msgs
                (fst (init Sample.env (Sample.at_ 0))))))
  /\ Exists (saysAlreadyUpToDate Sample.env) msgs.
Proof.
  split; [left; reflexivity|].
  apply (Eval_only_after_AlreadyUpToDate Sample.env (Sample.at_ 0)
           [WebSocketConnected (Sample.at_ 1);
            WebSocketMessageReceived (Sample.at_ 2)
              (JsString "AlreadyUpToDate")]
           (WebSocketMessageReceived (Sample.at_ 3)
              (JsString "SuccessfullyCompiled"))
           "1+1").
  left; reflexivity.
Defined.

(** ** The state machine, step by step *)

(** A goal about a command that [reconnect] never emits. *)
Ltac no_such_command model date force :=
  destruct (reconnect_cases model date force) as [->|(? & ? & _ & ->)];
  simpl; intuition discriminate.

Section Steps.

Variable env : Env.

(** What a received frame does, by what it parses to. *)
Lemma update_frame_cases date data model :
  (exists message,
      parseWebSocketMessageData env data = Error message
      /\ update env (WebSocketMessageReceived date data) model
         = (with_uiExpanded true
              (with_status (UnexpectedError date message) model), []))
  \/ (exists st,
        parseWebSocketMessageData env data = Success (StatusChanged st)
        /\ update env (WebSocketMessageReceived date data) model
           = (statusChanged date st model, []))
  \/ (exists code timestamp compilationMode,
        parseWebSocketMessageData env data
        = Success (SuccessfullyCompiled code timestamp compilationMode)
        /\ ((canHotReload model = false
             \/ mode compilationMode <> COMPILATION_MODE env)
            /\ update env (WebSocketMessageReceived date data) model
               = (model, [ReloadPage])
            \/ canHotReload model = true
               /\ mode compilationMode = COMPILATION_MODE env
               /\ update env (WebSocketMessageReceived date data) model
                  = (with_elmCompiledTimestamp timestamp
                       (with_status
                          (Idle date SEND_KEY_DO_NOT_USE_ALL_THE_TIME) model),
                     [Eval code]))).
Proof.
  simpl.
  destruct (parseWebSocketMessageData env data) as [message|message].
  - left. eauto.
  - right. destruct message as [st|code ts cm]; [left; eauto|].
    right. exists code, ts, cm. split; [reflexivity|]. simpl.
    destruct (canHotReload model) eqn:Hhot; simpl.
    + destruct (CompilationMode_differs cm (COMPILATION_MODE env)) eqn:D.
      * left. split; [|reflexivity]. right.
        now apply CompilationMode_differs_spec.
      * right. repeat split. now apply CompilationMode_differs_false.
    + left. split; [now left | reflexivity].
Qed.

(** X9: [elmCompiledTimestamp] changes only when compiled code is evaluated:
    the message is then a [SuccessfullyCompiled] frame in the client's
    mode, the new timestamp is the frame's and the one command evaluates
    the frame's code. *)
Theorem elmCompiledTimestamp_changes_with_Eval msg model :
  elmCompiledTimestamp (fst (update env msg model))
  <> elmCompiledTimestamp model ->
  exists code,
    saysSuccessfullyCompiled env msg code
      (elmCompiledTimestamp (fst (update env msg model)))
    /\ snd (update env msg model) = [Eval code]
    /\ canHotReload model = true.
Proof.
  destruct msg as [d| |d|d|d ui|d|d|d data];
    try (simpl; intros H; now destruct H).
  - simpl. destruct (reconnect_cases model d true) as [->|(s & n & _ & ->)];
      intros H; now destruct H.
  - simpl. destruct (reconnect_cases model d false) as [->|(s & n & _ & ->)];
      intros H; now destruct H.
  - destruct ui; simpl; try (intros H; now destruct H).
    destruct (reconnect_cases model d true) as [->|(s & n & _ & ->)];
      intros H; now destruct H.
  - destruct (update_frame_cases d data model)
      as [(m & _ & ->)|[(st & _ & ->)|(code & ts & cm & P & Hcase)]].
    + intros H; now destruct H.
    + destruct st; intros H; now destruct H.
    + destruct Hcase as [(_ & ->)|(Hhot & Hmode & ->)].
      * intros H; now destruct H.
      * intros _. exists code. simpl. repeat split; auto.
        now exists d, data, cm.
Qed.

(** X10: the UI is collapsed by the chevron only; and whenever a transition
    changes the status to an error that needs attention ([EvalError],
    [UnexpectedError]), the UI ends up expanded. *)
Theorem uiExpanded_collapsed_by_chevron_only msg model :
  (uiExpanded model = true ->
   uiExpanded (fst (update env msg model)) = false ->
   exists date, msg = UiMsg_ date PressedChevron)
  /\ (status (fst (update env msg model)) <> status model ->
      match status (fst (update env msg model)) with
      | EvalError _ | UnexpectedError _ _ =>
          uiExpanded (fst (update env msg model)) = true
      | _ => True
      end).
Proof.
  assert (forall d force,
             uiExpanded (fst (reconnect model d force)) = uiExpanded model
             /\ (status (fst (reconnect model d force)) <> status model ->
                 exists n, status (fst (reconnect model d force))
                           = Connecting d n)) as Hreconnect.
  { intros d force.
    destruct (reconnect_cases model d force) as [->|(s & n & _ & ->)];
      simpl; split; auto; try congruence. eauto. }
  destruct msg as [d| |d|d|d ui|d|d|d data].
  - simpl. split; [congruence | auto].
  - simpl. split; [congruence | intros H; now destruct H].
  - simpl. destruct (Hreconnect d true) as [-> Hs].
    split; [congruence|]. intros H. destruct (Hs H) as [n ->]. exact I.
  - simpl. destruct (Hreconnect d false) as [-> Hs].
    split; [congruence|]. intros H. destruct (Hs H) as [n ->]. exact I.
  - destruct ui as [cm k| |]; simpl.
    + split; [congruence | auto].
    + split; [intros _ _; now exists d | intros H; now destruct H].
    + destruct (Hreconnect d true) as [-> Hs].
      split; [congruence|]. intros H. destruct (Hs H) as [n ->]. exact I.
  - simpl. split; [congruence | auto].
  - simpl. split; [congruence | auto].
  - destruct (update_frame_cases d data model)
      as [(m & _ & ->)|[(st & _ & ->)|(code & ts & cm & P & Hcase)]].
    + simpl. split; [congruence | auto].
    + destruct st; simpl; (split; [congruence | auto]).
    + destruct Hcase as [(_ & ->)|(_ & _ & ->)]; simpl.
      * split; [congruence | intros H; now destruct H].
      * split; [congruence | auto].
Qed.

(** X11: an [Idle] status, with its send key, comes from the status the
    model already had or is made on one of two frames: [AlreadyUpToDate],
    or [SuccessfullyCompiled] in the client's mode when hot reloading is
    allowed. *)
Theorem Idle_from_server_only msg model date sendKey :
  status (fst (update env msg model)) = Idle date sendKey ->
  status model = Idle date sendKey
  \/ saysAlreadyUpToDate env msg
  \/ canHotReload model = true
     /\ exists code timestamp, saysSuccessfullyCompiled env msg code timestamp.
Proof.
  destruct msg as [d| |d|d|d ui|d|d|d data]; simpl; try discriminate; auto.
  - destruct (reconnect_cases model d true) as [->|(s & n & _ & ->)];
      simpl; [auto | discriminate].
  - destruct (reconnect_cases model d false) as [->|(s & n & _ & ->)];
      simpl; [auto | discriminate].
  - destruct ui; simpl; try discriminate; auto.
    destruct (reconnect_cases model d true) as [->|(s & n & _ & ->)];
      simpl; [auto | discriminate].
  - change (status (fst (update env (WebSocketMessageReceived d data) model))
            = Idle date sendKey -> status model = Idle date sendKey
            \/ saysAlreadyUpToDate env (WebSocketMessageReceived d data)
            \/ canHotReload model = true
               /\ exists code timestamp,
                   saysSuccessfullyCompiled env
                     (WebSocketMessageReceived d data) code timestamp).
    destruct (update_frame_cases d data model)
      as [(m & _ & ->)|[(st & P & ->)|(code & ts & cm & P & Hcase)]].
    + discriminate.
    + destruct st; simpl; try discriminate.
      intros _. right. left. now exists d, data.
    + destruct Hcase as [(_ & ->)|(Hhot & Hmode & ->)]; simpl; [auto|].
      intros _. right. right. split; [exact Hhot|].
      exists code, ts, d, data, cm. auto.
Qed.

(** X12: a page reload is asked for on a [SuccessfullyCompiled] frame only,
    when hot reloading is not allowed or the mode is not the client's;
    the model is then left as it is and nothing else is run. *)
Theorem ReloadPage_alone msg model :
  In ReloadPage (snd (update env msg model)) ->
  update env msg model = (model, [ReloadPage])
  /\ exists date data code timestamp compilationMode,
      msg = WebSocketMessageReceived date data
      /\ parseWebSocketMessageData env data
         = Success (SuccessfullyCompiled code timestamp compilationMode)
      /\ (canHotReload model = false
          \/ mode compilationMode <> COMPILATION_MODE env).
Proof.
  destruct msg as [d| |d|d|d ui|d|d|d data]; simpl.
  - intros [].
  - destruct (status model); simpl; intuition discriminate.
  - no_such_command model d true.
  - no_such_command model d false.
  - destruct ui; simpl; try intuition discriminate.
    no_such_command model d true.
  - intuition discriminate.
  - intros [].
  - change (In ReloadPage
              (snd (update env (WebSocketMessageReceived d data) model)) ->
            update env (WebSocketMessageReceived d data) model
            = (model, [ReloadPage])
            /\ exists date data0 code timestamp compilationMode,
                WebSocketMessageReceived d data
                = WebSocketMessageReceived date data0
                /\ parseWebSocketMessageData env data0
                   = Success
                       (SuccessfullyCompiled code timestamp compilationMode)
                /\ (canHotReload model = false
                    \/ mode compilationMode <> COMPILATION_MODE env)).
    destruct (update_frame_cases d data model)
      as [(m & _ & ->)|[(st & _ & ->)|(code & ts & cm & P & Hcase)]];
      try (intros []).
    destruct Hcase as [(Hwhy & ->)|(_ & _ & ->)].
    + intros _. split; [reflexivity|]. now exists d, data, code, ts, cm.
    + simpl. intuition discriminate.
Qed.

(** X13: [update] itself never renders; the [update] that [run] hands to the
    program loop runs the same commands and then exactly one [Render], of
    the new model, which takes the focus only for UI messages. *)
Theorem one_Render_last msg model :
  (forall rendered manageFocus,
      ~ In (Render rendered manageFocus) (snd (update env msg model)))
  /\ fst (update_and_render env msg model) = fst (update env msg model)
  /\ snd (update_and_render env msg model)
     = (snd (update env msg model)
        ++ [Render (fst (update env msg model))
              match msg with UiMsg_ _ _ => true | _ => false end])%list.
Proof.
  split; [|now rewrite update_and_render_spec].
  intros rendered manageFocus.
  destruct msg as [d| |d|d|d ui|d|d|d data]; simpl.
  - intros [].
  - destruct (status model); simpl; intuition discriminate.
  - no_such_command model d true.
  - no_such_command model d false.
  - destruct ui; simpl; try intuition discriminate.
    no_such_command model d true.
  - intuition discriminate.
  - intros [].
  - destruct (parseWebSocketMessageData env data) as [m|m]; simpl;
      [intros []|].
    destruct m as [st|code ts cm]; simpl; [intros []|].
    destruct (negb (canHotReload model)
              || CompilationMode_differs cm (COMPILATION_MODE env));
      simpl; intuition discriminate.
Qed.


End Steps.

(** A frame that is evaluated in place. *)
Lemma elmCompiledTimestamp_changes_with_Eval_witness :
  let model :=
    {| status := Idle (Sample.at_ 5) SEND_KEY_DO_NOT_USE_ALL_THE_TIME;
       elmCompiledTimestamp := 0;
       canHotReload := true;
       uiExpanded := false |} in
  let msg :=
    WebSocketMessageReceived (Sample.at_ 9) (JsString "SuccessfullyCompiled") in
  elmCompiledTimestamp (fst (update Sample.env msg model))
  <> elmCompiledTimestamp model
  /\ exists code,
      saysSuccessfullyCompiled Sample.env msg code
        (elmCompiledTimestamp (fst (update Sample.env msg model)))
      /\ snd (update Sample.env msg model) = [Eval code]
      /\ canHotReload model = true.
Proof.
  split; [discriminate|].
  apply (elmCompiledTimestamp_changes_with_Eval Sample.env
           (WebSocketMessageReceived (Sample.at_ 9)
              (JsString "SuccessfullyCompiled"))
           {| status := Idle (Sample.at_ 5) SEND_KEY_DO_NOT_USE_ALL_THE_TIME;
              elmCompiledTimestamp := 0;
              canHotReload := true;
              uiExpanded := false |}).
  discriminate.
Defined.

(** The first [AlreadyUpToDate] after the connection has opened. *)
Lemma Idle_from_server_only_witness :
  let model :=
    {| status := Busy (Sample.at_ 5) None;
       elmCompiledTimestamp := 0;
       canHotReload := false;
       uiExpanded := false |} in
  let msg :=
    WebSocketMessageReceived (Sample.at_ 9) (JsString "AlreadyUpToDate") in
  status (fst (update Sample.env msg model))
  = Idle (Sample.at_ 9) SEND_KEY_DO_NOT_USE_ALL_THE_TIME
  /\ (status model = Idle (Sample.at_ 9) SEND_KEY_DO_NOT_USE_ALL_THE_TIME
      \/ saysAlreadyUpToDate Sample.env msg
      \/ canHotReload model = true
         /\ exists code timestamp,
             saysSuccessfullyCompiled Sample.env msg code timestamp).
Proof.
  split; [reflexivity|].
  apply (Idle_from_server_only Sample.env
           (WebSocketMessageReceived (Sample.at_ 9)
              (JsString "AlreadyUpToDate"))
           {| status := Busy (Sample.at_ 5) None;
              elmCompiledTimestamp := 0;
              canHotReload := false;
              uiExpanded := false |}
           (Sample.at_ 9) SEND_KEY_DO_NOT_USE_ALL_THE_TIME).
  reflexivity.
Defined.

(** Compiled code arriving before any [AlreadyUpToDate]. *)
Lemma ReloadPage_alone_witness :
  let model :=
    {| status := Busy (Sample.at_ 5) None;
       elmCompiledTimestamp := 0;
       canHotReload := false;
       uiExpanded := false |} in
  let msg :=
    WebSocketMessageReceived (Sample.at_ 9) (JsString "SuccessfullyCompiled") in
  In ReloadPage (snd (update Sample.env msg model))
  /\ update Sample.env msg model = (model, [ReloadPage]).
Proof.
  split; [left; reflexivity|].
  apply (ReloadPage_alone Sample.env
           (WebSocketMessageReceived (Sample.at_ 9)
              (JsString "SuccessfullyCompiled"))
           {| status := Busy (Sample.at_ 5) None;
              elmCompiledTimestamp := 0;
              canHotReload := false;
              uiExpanded := false |}).
  left; reflexivity.
Defined.

(** ** Program introspection, further *)

Lemma forallb_false_Exists {A : Type} (f : A -> bool) (l : list A) :
  forallb f l = false <-> Exists (fun x => f x = false) l.
Proof.
  induction l as [|x l IH]; simpl.
  - split; [discriminate | intros H; inversion H].
  - rewrite andb_false_iff, IH. split.
    + intros [H|H]; [now constructor | now constructor 2].
    + intros H. inversion H; auto.
Qed.

(** X15: the debugger is offered ([Enabled]) exactly when at least one
    program of a kind that supports it was found (["Browser.sandbox"],
    ["Browser.element"], ["Browser.document"], ["Browser.application"]),
    or, in proxy mode, when the registry could not be decoded. *)
Theorem Enabled_iff (env : Env) (window : Window) :
  checkInitializedElmAppsStatus env window = DebuggerModeStatus Enabled
  <-> (exists error,
         ProgramTypes window = inl error /\ COMPILATION_MODE env = proxy)
      \/ (exists found,
            ProgramTypes window = inr found
            /\ Exists debuggerCompatible found).
Proof.
  destruct (ProgramTypes window) as [error|found] eqn:E.
  - unfold checkInitializedElmAppsStatus. rewrite E. split.
    + destruct (COMPILATION_MODE env); [discriminate|].
      intros _. left. now exists error.
    + intros [(e & _ & ->)|(f & Hf & _)]; [reflexivity | discriminate].
  - rewrite (checkInitializedElmAppsStatus_found env _ _ E). split.
    + destruct found as [|t found]; [discriminate|].
      destruct (forallb noDebuggerFilter (t :: found)) eqn:A;
        [discriminate|].
      intros _. right. exists (t :: found). split; [reflexivity|].
      apply forallb_false_Exists in A. revert A.
      apply Exists_impl. intros kind. apply noDebuggerFilter_compatible.
    + intros [(e & He & _)|(f & Hf & Hex)]; [discriminate|].
      injection Hf as <-.
      assert (forallb noDebuggerFilter found = false) as A.
      { apply forallb_false_Exists. revert Hex.
        apply Exists_impl. intros kind. apply noDebuggerFilter_compatible. }
      destruct found as [|t found]; [discriminate|]. now rewrite A.
Qed.

(** A plain-render program next to an element program: the debugger is
    offered; without the element program it is not. *)
Lemma Enabled_iff_witness :
  checkInitializedElmAppsStatus Sample.env
    (Sample.initialized ["Html"; "Browser.element"])
  = DebuggerModeStatus Enabled
  /\ checkInitializedElmAppsStatus Sample.env (Sample.initialized ["Html"])
     <> DebuggerModeStatus Enabled.
Proof.
  split.
  - apply (Enabled_iff Sample.env
             (Sample.initialized ["Html"; "Browser.element"])).
    right. exists [Html; Browser_element]. split; [reflexivity|].
    constructor 2. constructor. right. now left.
  - intros H.
    apply (Enabled_iff Sample.env (Sample.initialized ["Html"])) in H.
    destruct H as [(error & H & _)|(found & H & Hex)]; [discriminate|].
    injection H as <-.
    inversion Hex as [? ? Hkind|? ? Htail]; subst.
    + destruct Hkind as [H|[H|[H|H]]]; discriminate.
    + inversion Htail.
Defined.

(** A registry decodes entry by entry, in key order: the program types
    of two parts are those of the first followed by those of the second,
    and the first error met is the one reported. *)
Lemma ElmModule_app (first second : list (string * JsValue)) :
  ElmModule (JsObject (first ++ second))
  = match ElmModule (JsObject first) with
    | inl error => inl error
    | inr types =>
        match ElmModule (JsObject second) with
        | inl error => inl error
        | inr types' => inr (types ++ types')%list
        end
    end.
Proof.
  induction first as [|[key v] first IH].
  - simpl app. change (ElmModule (JsObject [])) with
      (@inr Decode.DecoderError (list ProgramType) []).
    now destruct (ElmModule (JsObject second)).
  - change (((key, v) :: first) ++ second)%list
      with ((key, v) :: (first ++ second))%list.
    rewrite !ElmModule_cons, IH.
    destruct (String.eqb key "__proto__"); [reflexivity|].
    destruct (ElmModule_entry v) as [error|types]; [reflexivity|].
    destruct (ElmModule (JsObject first)) as [error|types'];
      [reflexivity|].
    destruct (ElmModule (JsObject second)) as [error|types''];
      [reflexivity|].
    now rewrite app_assoc.
Qed.

(** X16: what does not count in a registry: an entry whose value is a
    function (such as [init]) or [null], and a key ["__proto__"], can be
    left out without changing what is decoded; a nested module counts
    with the program types found inside it. *)
Theorem ElmModule_entries
  (before after : list (string * JsValue)) (key : string) (v : JsValue) :
  (v = JsFunction \/ v = JsNull \/ key = "__proto__" ->
   ElmModule (JsObject (before ++ (key, v) :: after))
   = ElmModule (JsObject (before ++ after)))
  /\ (forall nested types,
        v = JsObject nested ->
        key <> "__proto__" ->
        ElmModule (JsObject nested) = inr types ->
        ElmModule (JsObject (before ++ (key, v) :: after))
        = match ElmModule (JsObject before) with
          | inl error => inl error
          | inr types' =>
              match ElmModule (JsObject after) with
              | inl error => inl error
              | inr types'' => inr (types' ++ types ++ types'')%list
              end
          end).
Proof.
  split.
  - intros H. rewrite !ElmModule_app, ElmModule_cons.
    destruct (String.eqb key "__proto__") eqn:K; [reflexivity|].
    destruct H as [-> | [-> | ->]]; [| |discriminate];
      change (ElmModule_entry _) with
        (@inr Decode.DecoderError (list ProgramType) []);
      now destruct (ElmModule (JsObject after)).
  - intros nested types -> Hkey Hnested.
    rewrite ElmModule_app, ElmModule_cons.
    apply String.eqb_neq in Hkey. rewrite Hkey.
    change (ElmModule_entry (JsObject nested))
      with (ElmModule (JsObject nested)).
    rewrite Hnested.
    destruct (ElmModule (JsObject before)); [reflexivity|].
    now destruct (ElmModule (JsObject after)).
Qed.

(** A module with its [init] function next to a nested module. *)
Lemma ElmModule_entries_witness :
  let apps (type : string) :=
    JsArray [JsObject [("__elmWatchProgramType", JsString type)]] in
  let before := [("apps", apps "Html")] in
  let after := [("Admin", JsObject [("apps", apps "Browser.element")])] in
  (JsFunction = JsFunction \/ JsFunction = JsNull \/ "init" = "__proto__")
  /\ ElmModule (JsObject (before ++ ("init", JsFunction) :: after))
     = ElmModule (JsObject (before ++ after)).
Proof.
  split; [now left|].
  apply (ElmModule_entries
           [("apps",
             JsArray [JsObject [("__elmWatchProgramType", JsString "Html")]])]
           [("Admin",
             JsObject
               [("apps",
                 JsArray
                   [JsObject
                      [("__elmWatchProgramType",
                        JsString "Browser.element")]])])]
           "init" JsFunction).
  now left.
Defined.

(** X17: [humanList] with two items or more: the last two are joined by the
    word, and what comes before them is joined by bare commas and set
    off by a comma and a space. *)
Theorem humanList_last_two
  (front : list string) (x y joinWord : string) :
  humanList (front ++ [x; y]) joinWord
  = match front with
    | [] => x ++ (" " ++ joinWord ++ " ") ++ y
    | _ :: _ =>
        String.concat "," front
        ++ ", " ++ x ++ (" " ++ joinWord ++ " ") ++ y
    end.
Proof.
  unfold humanList, join. rewrite length_app. simpl List.length.
  destruct front as [|a front]; [reflexivity|].
  simpl List.length.
  replace (S (List.length front) + 2 <=? 1)%nat with false
    by (symmetry; apply Nat.leb_gt; lia).
  replace (S (List.length front) + 2 =? 2)%nat with false
    by (symmetry; apply Nat.eqb_neq; lia).
  replace (S (List.length front) + 2 - 2)%nat
    with (List.length (a :: front)) by (simpl; lia).
  rewrite firstn_app, Nat.sub_diag, firstn_all. simpl firstn.
  rewrite app_nil_r.
  rewrite skipn_app, Nat.sub_diag, skipn_all. reflexivity.
Qed.

Example humanList_examples :
  humanList [] "and" = ""
  /\ humanList ["a"] "and" = "a"
  /\ humanList ["a"; "b"] "and" = "a and b"
  /\ humanList ["a"; "b"; "c"; "d"] "and" = "a,b, c and d".
Proof. repeat split. Qed.

(** ** The interception guard, further *)

(** X18: the guard never reports absence: a presence check that returns,
    returns true; a read that returns, returns what the placeholder
    holds, and that is [undefined] only for a name starting with an
    underscore; a descriptor that is returned is that of an own
    property; enumerating keys returns nothing at all. *)
Theorem elmProxy_never_reports_absence
  (target : Proxy.Target) (property : Proxy.PropertyKey) :
  (forall result,
      Proxy.has target property = Proxy.Return result ->
      result = true /\ Proxy.find target property <> None)
  /\ (forall result,
        Proxy.get target property = Proxy.Return result ->
        result = Proxy.Reflect_get target property
        /\ (result = JsUndefined ->
            Proxy.startsWith (Proxy.toString property) "_" = true))
  /\ (forall descriptor,
        Proxy.getOwnPropertyDescriptor target property
        = Proxy.Return descriptor ->
        Proxy.lookup (Proxy.own target) property
        = Some (Proxy.value descriptor))
  /\ (forall keys, Proxy.ownKeys target <> Proxy.Return keys).
Proof.
  split; [|split; [|split]].
  - intros result H. unfold Proxy.has, Proxy.Reflect_has in H.
    destruct (Proxy.find target property); [|discriminate].
    injection H as <-. split; [reflexivity | discriminate].
  - intros result H. unfold Proxy.get in H.
    destruct (negb (Proxy.isUndefined (Proxy.Reflect_get target property))
              || Proxy.startsWith (Proxy.toString property) "_") eqn:G;
      [|discriminate].
    injection H as <-. split; [reflexivity|].
    intros U. rewrite U in G. exact G.
  - intros descriptor H.
    unfold Proxy.getOwnPropertyDescriptor,
      Proxy.Reflect_getOwnPropertyDescriptor in H.
    destruct (Proxy.lookup (Proxy.own target) property);
      [now injection H as <- | discriminate].
  - intros keys. destruct keys.
Qed.

(** ** The view and the state machine *)

(** X19: the button that reconnects is in the view only while the client
    sleeps with the UI expanded, and pressing it then always reconnects,
    whatever the time. *)
Theorem reconnect_button_reconnects
  (env : Env) (model : Model) (info : Info) (date : Date) :
  In PressedReconnectNow (view model info) ->
  uiExpanded model = true
  /\ exists since attemptNumber,
      status model = SleepingBeforeReconnect since attemptNumber
      /\ update env (UiMsg_ date PressedReconnectNow) model
         = (with_status (Connecting date attemptNumber) model,
            [Reconnect (elmCompiledTimestamp model)]).
Proof.
  unfold view. intros H. apply in_app_or in H.
  destruct H as [H|[H|[]]]; [|discriminate].
  destruct (uiExpanded model); [|destruct H].
  split; [reflexivity|].
  unfold viewStatus, viewCompilationModeChooser in H.
  destruct (status model) as [| | | |since key|since n|] eqn:E.
  - now destruct (initializedElmAppsStatus info).
  - destruct H.
  - destruct H.
  - destruct H.
  - destruct (initializedElmAppsStatus info) as [toggled|message|];
      [simpl in H; intuition discriminate | destruct H | destruct H].
  - exists since, n. split; [reflexivity|].
    simpl. unfold reconnect. rewrite E. now rewrite orb_true_r.
  - destruct H.
Qed.

(** The expanded view of a sleeping client. *)
Lemma reconnect_button_reconnects_witness :
  let model :=
    {| status := SleepingBeforeReconnect (Sample.at_ 10) 2;
       elmCompiledTimestamp := 42;
       canHotReload := false;
       uiExpanded := true |} in
  let info :=
    {| version := "1.0.0";
       webSocketUrl := "ws://localhost:53167";
       targetName := "Main";
       compilationMode := mode standard;
       initializedElmAppsStatus := NoProgramsAtAll |} in
  In PressedReconnectNow (view model info)
  /\ uiExpanded model = true
  /\ exists since attemptNumber,
      status model = SleepingBeforeReconnect since attemptNumber
      /\ update Sample.env (UiMsg_ (Sample.at_ 20) PressedReconnectNow) model
         = (with_status (Connecting (Sample.at_ 20) attemptNumber) model,
            [Reconnect (elmCompiledTimestamp model)]).
Proof.
  split; [left; reflexivity|].
  apply (reconnect_button_reconnects Sample.env
           {| status := SleepingBeforeReconnect (Sample.at_ 10) 2;
              elmCompiledTimestamp := 42;
              canHotReload := false;
              uiExpanded := true |}
           {| version := "1.0.0";
              webSocketUrl := "ws://localhost:53167";
              targetName := "Main";
              compilationMode := mode standard;
              initializedElmAppsStatus := NoProgramsAtAll |}
           (Sample.at_ 20)).
  left; reflexivity.
Defined.
